(** * ShopMetrics order service: cart to order conversion

    A shallow embedding of [services/order-service/main.py].  The handlers
    are written in a small state-and-exception monad over a [World] that
    holds the PostgreSQL tables, the Redis cache, the SQS queue, the clock
    and the process environment.

    Modelling conventions.
    - A [Decimal] amount is the integer number of hundredths it denotes
      (10.00 is 1000); [+] and multiplication by an [int] round to the 28
      significant digits of Python's default decimal context.
    - Row identifiers are numbers drawn from a per-table sequence; [str id]
      (and the [cart_id]/[order_id] strings of requests) is identified with
      the number, and rendered with [pretty] where a string is built.
    - Timestamps are seconds on the clock [now] of the world.
    - A SQL table is the list of its rows in insertion order. *)

From Stdlib Require Import ZArith List Lia.
From stdpp Require Import base option list strings gmap pretty sorting.

Set Warnings "-register-all".

Local Open Scope string_scope.
Local Open Scope list_scope.
Local Open Scope Z_scope.

(** ** Python values *)

Abbreviation Decimal := Z (only parsing).

(** The values that reach a JSON document or a response dictionary.
    [PyFloat d] is [float(d)], the binary64 number nearest to the decimal
    [d]; the model keeps the operand, not the bits. *)
Inductive pyvalue :=
| PyStr (s : string)
| PyInt (n : Z)
| PyDecimal (d : Decimal)
| PyFloat (d : Decimal)
| PyList (l : list pyvalue)
| PyDict (d : list (string * pyvalue)).

Fixpoint dict_get (k : string) (d : list (string * pyvalue)) : option pyvalue :=
  match d with
  | [] => None
  | (k', v) :: d' => if String.eqb k k' then Some v else dict_get k d'
  end.

(** [v[k]] on a value that is a dictionary. *)
Definition py_get (k : string) (v : pyvalue) : option pyvalue :=
  match v with
  | PyDict d => dict_get k d
  | _ => None
  end.

(** Python's [float(d)] and the comparison [amount < 0] on the result. *)
Definition float (d : Decimal) : pyvalue := PyFloat d.

Definition float_ltb0 (v : pyvalue) : bool :=
  match v with
  | PyFloat d => d <? 0
  | _ => false
  end.

(** Arithmetic on [Decimal] runs in Python's default context: a result of
    more than 28 significant digits is rounded to 28, half to even.  On an
    amount in hundredths that is a rounding of the integer itself: the
    digits beyond the first 28 become zeros. *)
Fixpoint excess_digits (fuel : nat) (a : Z) : Z :=
  match fuel with
  | O => 0
  | S fuel' => if a <? 10 ^ 28 then 0 else 1 + excess_digits fuel' (a / 10)
  end.

Definition round_half_even (a k : Z) : Z :=
  let q := a / 10 ^ k in
  let r := a mod 10 ^ k in
  (if 2 * r <? 10 ^ k then q
   else if 10 ^ k <? 2 * r then q + 1
   else if Z.even q then q else q + 1) * 10 ^ k.

Definition Decimal_round (v : Decimal) : Decimal :=
  let a := Z.abs v in
  if a <? 10 ^ 28 then v
  else Z.sgn v * round_half_even a (excess_digits (Z.to_nat (Z.log2 a)) a).

(** [n * d] for an [int] and a [Decimal], and [a + b]. *)
Definition Decimal_mul (n : Z) (d : Decimal) : Decimal := Decimal_round (n * d).
Definition Decimal_add (a b : Decimal) : Decimal := Decimal_round (a + b).

(** [sum(...)] over a generator of decimals: left fold of [+] from the
    integer [0]. *)
Definition py_sum (l : list Decimal) : Decimal := fold_left Decimal_add l 0.

(** [str(n)] of an identifier, and [isoformat()] of a timestamp. *)
Definition str (n : nat) : string := pretty n.
Definition isoformat (t : Z) : string := pretty t.

(** [str(d)] of a decimal with two places, as [json.dumps(..., default=str)]
    renders a price. *)
Definition str_Decimal (d : Decimal) : string :=
  let a := Z.abs d in
  (if d <? 0 then "-" else "") +:+ pretty (a / 100) +:+ "." +:+
  pretty (a mod 100 / 10) +:+ pretty (a mod 10).

(** ** Rows and tables *)

Record CartRow := {
  c_id : nat;
  c_user_id : string;
  c_created_at : Z;
  c_expires_at : Z
}.

Record CartItemRow := {
  ci_cart_id : nat;
  ci_product_id : string;
  ci_quantity : Z;
  ci_price : Decimal
}.

Record OrderRow := {
  o_id : nat;
  o_user_id : string;
  o_status : string;
  o_total : Decimal;
  o_currency : string;
  o_created_at : Z;
  o_updated_at : Z
}.

Record OrderItemRow := {
  oi_order_id : nat;
  oi_product_id : string;
  oi_quantity : Z;
  oi_price : Decimal
}.

Record ProductRow := {
  p_id : string;
  p_name : string;
  p_image_url : string
}.

Record Tables := {
  cart : list CartRow;
  cart_items : list CartItemRow;
  orders : list OrderRow;
  order_items : list OrderItemRow;
  products : list ProductRow
}.

(** A message handed to [sqs_client.send_message]. *)
Record SqsMessage := {
  QueueUrl : string;
  MessageBody : list (string * pyvalue)
}.

(** The state the handlers act on.  [tables] is transactional; the two
    sequences, the cache and the queue are not: a rollback leaves them as
    they are.  A cache entry carries the time at which it expires. *)
Record World := {
  tables : Tables;
  cart_id_seq : nat;
  order_id_seq : nat;
  redis : gmap string (pyvalue * Z);
  sqs : list SqsMessage;
  now : Z;
  ORDER_QUEUE_URL : option string
}.

Definition set_tables (t : Tables) (w : World) : World :=
  {| tables := t; cart_id_seq := cart_id_seq w; order_id_seq := order_id_seq w;
     redis := redis w; sqs := sqs w; now := now w;
     ORDER_QUEUE_URL := ORDER_QUEUE_URL w |}.

Definition set_cart_id_seq (n : nat) (w : World) : World :=
  {| tables := tables w; cart_id_seq := n; order_id_seq := order_id_seq w;
     redis := redis w; sqs := sqs w; now := now w;
     ORDER_QUEUE_URL := ORDER_QUEUE_URL w |}.

Definition set_order_id_seq (n : nat) (w : World) : World :=
  {| tables := tables w; cart_id_seq := cart_id_seq w; order_id_seq := n;
     redis := redis w; sqs := sqs w; now := now w;
     ORDER_QUEUE_URL := ORDER_QUEUE_URL w |}.

Definition set_redis (r : gmap string (pyvalue * Z)) (w : World) : World :=
  {| tables := tables w; cart_id_seq := cart_id_seq w;
     order_id_seq := order_id_seq w; redis := r; sqs := sqs w; now := now w;
     ORDER_QUEUE_URL := ORDER_QUEUE_URL w |}.

Definition set_sqs (q : list SqsMessage) (w : World) : World :=
  {| tables := tables w; cart_id_seq := cart_id_seq w;
     order_id_seq := order_id_seq w; redis := redis w; sqs := q; now := now w;
     ORDER_QUEUE_URL := ORDER_QUEUE_URL w |}.

(** The clock moving on between two requests. *)
Definition at_time (t : Z) (w : World) : World :=
  {| tables := tables w; cart_id_seq := cart_id_seq w;
     order_id_seq := order_id_seq w; redis := redis w; sqs := sqs w; now := t;
     ORDER_QUEUE_URL := ORDER_QUEUE_URL w |}.

Definition set_cart (l : list CartRow) (t : Tables) : Tables :=
  {| cart := l; cart_items := cart_items t; orders := orders t;
     order_items := order_items t; products := products t |}.

Definition set_cart_items (l : list CartItemRow) (t : Tables) : Tables :=
  {| cart := cart t; cart_items := l; orders := orders t;
     order_items := order_items t; products := products t |}.

Definition set_orders (l : list OrderRow) (t : Tables) : Tables :=
  {| cart := cart t; cart_items := cart_items t; orders := l;
     order_items := order_items t; products := products t |}.

Definition set_order_items (l : list OrderItemRow) (t : Tables) : Tables :=
  {| cart := cart t; cart_items := cart_items t; orders := orders t;
     order_items := l; products := products t |}.

(** ** Exceptions and the handler monad *)

(** [HTTPException] is FastAPI's; [Exception] stands for every other
    Python exception (a driver error, [ValueError], a boto3 error). *)
Inductive exn :=
| HTTPException (status_code : Z) (detail : string)
| Exception (what : string).

Inductive outcome (A : Type) :=
| Return (a : A)
| Raise (e : exn).
Arguments Return {A} a.
Arguments Raise {A} e.

Definition M (A : Type) : Type := World -> outcome A * World.

#[global] Instance M_ret : MRet M := fun A a w => (Return a, w).

#[global] Instance M_bind : MBind M := fun A B k m w =>
  match m w with
  | (Return a, w') => k a w'
  | (Raise e, w') => (Raise e, w')
  end.

Definition raise {A} (e : exn) : M A := fun w => (Raise e, w).

(** [for x in l: f(x)] *)
Fixpoint for_each {A} (l : list A) (f : A -> M unit) : M unit :=
  match l with
  | [] => mret tt
  | x :: l' => f x ;; for_each l' f
  end.

(** [except HTTPException: raise] followed by
    [except Exception as e: ... raise HTTPException(500, detail)]. *)
Definition except_Exception {A} (detail : string) (m : M A) : M A := fun w =>
  match m w with
  | (Raise (Exception _), w') => (Raise (HTTPException 500 detail), w')
  | r => r
  end.

(** ** Infrastructure failures

    A storage statement, the queue send and the commit can each raise.
    [Faults] says at which points of a request they do. *)
Inductive fault_point :=
| AtSelect | AtInsertOrder | AtInsertItem | AtDeleteItems | AtDeleteCart
| AtSend | AtCommit
| AtInsertCart | AtInsertCartItem (k : nat).

Definition Faults := fault_point -> bool.
Definition no_faults : Faults := fun _ => false.

Definition may_fail (flt : Faults) (p : fault_point) : M unit := fun w =>
  if flt p then (Raise (Exception "infrastructure failure"), w)
  else (Return tt, w).

(** [async with conn.transaction()]: on an exception the writes to the
    tables are undone; everything else the body did stays done. *)
Definition rollback (w0 w : World) : World := set_tables (tables w0) w.

Definition transaction {A} (flt : Faults) (body : M A) : M A := fun w =>
  match body w with
  | (Return a, w') =>
      if flt AtCommit then (Raise (Exception "commit failed"), rollback w w')
      else (Return a, w')
  | (Raise e, w') => (Raise e, rollback w w')
  end.

(** ** Request models *)

Record CartItem := {
  product_id : string;
  quantity : Z;
  price : Decimal
}.

(** The [@validator('quantity')] of [CartItem]. *)
Definition quantity_must_be_positive (v : Z) : option Z :=
  if v <=? 0 then None else Some v.

Record CreateCartRequest := {
  cart_request_user_id : string;
  items : list CartItem
}.

Record CreateOrderRequest := {
  user_id : string;
  cart_id : nat;
  shipping_address_id : string;
  billing_address_id : string;
  payment_method_id : string
}.

Record OrderResponse := {
  response_id : string;
  response_user_id : string;
  status : string;
  total : Decimal;
  currency : string;
  created_at : Z;
  response_items : list (list (string * pyvalue))
}.

(** ** SQL statements *)

Definition cart_items_of (cid : nat) (t : Tables) : list CartItemRow :=
  List.filter (fun r => Nat.eqb (ci_cart_id r) cid) (cart_items t).

Definition order_items_of (oid : nat) (t : Tables) : list OrderItemRow :=
  List.filter (fun r => Nat.eqb (oi_order_id r) oid) (order_items t).

(** What a read-only statement sees. *)
Definition read_tables : M Tables := fun w => (Return (tables w), w).

(** [SELECT * FROM cart_items WHERE cart_id = $1].  There is no
    [ORDER BY]; the rows are taken in insertion order, one of the orders
    PostgreSQL may choose. *)
Definition select_cart_items (cid : nat) : M (list CartItemRow) := fun w =>
  (Return (cart_items_of cid (tables w)), w).

(** [INSERT INTO cart (user_id, created_at, expires_at)
     VALUES ($1, NOW(), NOW() + INTERVAL '24 hours') RETURNING id] *)
Definition insert_cart (uid : string) : M nat := fun w =>
  let cid := cart_id_seq w in
  let row := {| c_id := cid; c_user_id := uid; c_created_at := now w;
                c_expires_at := now w + 86400 |} in
  (Return cid,
   set_cart_id_seq (S cid)
     (set_tables (set_cart (cart (tables w) ++ [row]) (tables w)) w)).

(** [INSERT INTO cart_items (cart_id, product_id, quantity, price)].  The
    driver sends the quantity as an integer of at most 64 bits and raises
    on one that does not fit. *)
Definition insert_cart_item (cid : nat) (item : CartItem) : M unit := fun w =>
  if 2 ^ 63 <=? quantity item
  then (Raise (Exception "value out of int64 range"), w)
  else
    let row := {| ci_cart_id := cid; ci_product_id := product_id item;
                  ci_quantity := quantity item; ci_price := price item |} in
    (Return tt,
     set_tables (set_cart_items (cart_items (tables w) ++ [row]) (tables w)) w).

(** [INSERT INTO orders (user_id, status, total, currency, created_at,
     updated_at) VALUES ($1, $2, $3, $4, NOW(), NOW()) RETURNING id] *)
Definition insert_order (uid st : string) (tot : Decimal) (cur : string)
  : M nat := fun w =>
  let oid := order_id_seq w in
  let row := {| o_id := oid; o_user_id := uid; o_status := st; o_total := tot;
                o_currency := cur; o_created_at := now w;
                o_updated_at := now w |} in
  (Return oid,
   set_order_id_seq (S oid)
     (set_tables (set_orders (orders (tables w) ++ [row]) (tables w)) w)).

Definition order_item_row (oid : nat) (item : CartItemRow) : OrderItemRow :=
  {| oi_order_id := oid; oi_product_id := ci_product_id item;
     oi_quantity := ci_quantity item; oi_price := ci_price item |}.

(** [INSERT INTO order_items (order_id, product_id, quantity, price)] *)
Definition insert_order_item (oid : nat) (item : CartItemRow) : M unit :=
  fun w =>
  (Return tt,
   set_tables (set_order_items
                 (order_items (tables w) ++ [order_item_row oid item])
                 (tables w)) w).

(** [DELETE FROM cart_items WHERE cart_id = $1] *)
Definition delete_cart_items (cid : nat) : M unit := fun w =>
  (Return tt,
   set_tables (set_cart_items
                 (List.filter (fun r => negb (Nat.eqb (ci_cart_id r) cid))
                    (cart_items (tables w)))
                 (tables w)) w).

(** [DELETE FROM cart WHERE id = $1] *)
Definition delete_cart (cid : nat) : M unit := fun w =>
  (Return tt,
   set_tables (set_cart
                 (List.filter (fun r => negb (Nat.eqb (c_id r) cid))
                    (cart (tables w)))
                 (tables w)) w).

Definition set_status (st : string) (t : Z) (o : OrderRow) : OrderRow :=
  {| o_id := o_id o; o_user_id := o_user_id o; o_status := st;
     o_total := o_total o; o_currency := o_currency o;
     o_created_at := o_created_at o; o_updated_at := t |}.

(** [UPDATE orders SET status = $1, updated_at = NOW() WHERE id = $2];
    the value is the row count of the command tag ["UPDATE n"]. *)
Definition update_orders_status (st : string) (oid : nat) : M nat := fun w =>
  let hit := fun o => Nat.eqb (o_id o) oid in
  (Return (length (List.filter hit (orders (tables w)))),
   set_tables (set_orders
                 (map (fun o => if hit o then set_status st (now w) o else o)
                    (orders (tables w)))
                 (tables w)) w).

(** ** Cache, queue, environment, metrics *)

(** [redis_client.get(key)]: an entry past its expiry is gone. *)
Definition redis_get (key : string) : M (option pyvalue) := fun w =>
  (Return match redis w !! key with
          | Some (v, expiry) => if now w <? expiry then Some v else None
          | None => None
          end, w).

(** [redis_client.setex(key, ttl, value)] *)
Definition redis_setex (key : string) (ttl : Z) (v : pyvalue) : M unit :=
  fun w => (Return tt, set_redis (<[key := (v, now w + ttl)]> (redis w)) w).

(** [os.getenv('ORDER_QUEUE_URL')] *)
Definition getenv_ORDER_QUEUE_URL : M (option string) := fun w =>
  (Return (ORDER_QUEUE_URL w), w).

(** [sqs_client.send_message(QueueUrl=..., MessageBody=json.dumps(body))] *)
Definition send_message (url : string) (body : list (string * pyvalue))
  : M unit := fun w =>
  (Return tt,
   set_sqs (sqs w ++ [{| QueueUrl := url; MessageBody := body |}]) w).

(** [Counter.inc(amount)] of prometheus_client: a negative amount raises
    [ValueError].  The counter values themselves are not modelled. *)
Definition Counter_inc (amount : pyvalue) : M unit :=
  if float_ltb0 amount
  then raise (Exception
                "Counters can only be incremented by non-negative amounts.")
  else mret tt.

(** The document [json.loads(json.dumps(v, default=str))] gives back. *)
Fixpoint json_default_str (v : pyvalue) : pyvalue :=
  match v with
  | PyDecimal d => PyStr (str_Decimal d)
  | PyList l => PyList (map json_default_str l)
  | PyDict d => PyDict (map (fun kv => (fst kv, json_default_str (snd kv))) d)
  | _ => v
  end.

(** ** The handlers *)

(** [enumerate(l)]: the items with their positions. *)
Definition enumerate {A} (l : list A) : list (nat * A) :=
  combine (seq 0 (length l)) l.

(** [POST /api/cart].  The request body is parsed into the pydantic model,
    which runs the validator, before the handler body; a rejected body is
    answered 422 and nothing is written.  The statements run outside any
    transaction: when an [INSERT] fails, what was inserted before it stays.
    (The positions serve only to say which [INSERT] fails.) *)
Definition create_cart (flt : Faults) (cart_request : CreateCartRequest)
  : M pyvalue :=
  if forallb (fun item => bool_decide
                (is_Some (quantity_must_be_positive (quantity item))))
       (items cart_request)
  then
    except_Exception "Failed to create cart" (
      may_fail flt AtInsertCart ;;
      cid ← insert_cart (cart_request_user_id cart_request);
      for_each (enumerate (items cart_request)) (fun ki =>
        may_fail flt (AtInsertCartItem (fst ki)) ;;
        insert_cart_item cid (snd ki)) ;;
      mret (PyDict [("cart_id", PyStr (str cid));
                    ("message", PyStr "Cart created successfully")]))
  else raise (HTTPException 422 "Quantity must be positive").

(** [dict(item)] for a row of
    [SELECT ci.*, p.name, p.image_url FROM cart_items ci
     JOIN products p ON ci.product_id = p.id]. *)
Definition cart_item_dict (ci : CartItemRow) (p : ProductRow) : pyvalue :=
  PyDict [("cart_id", PyStr (str (ci_cart_id ci)));
          ("product_id", PyStr (ci_product_id ci));
          ("quantity", PyInt (ci_quantity ci));
          ("price", PyDecimal (ci_price ci));
          ("name", PyStr (p_name p));
          ("image_url", PyStr (p_image_url p))].

(** The rows of [... JOIN products p ON x.product_id = p.id].  The query
    has no [ORDER BY]: PostgreSQL may hand the rows over in any order, and
    the one taken here is one of them; what is proved of the rows of a
    join is proved up to their order. *)
Definition join_products {A B} (pid : A -> string) (mk : A -> ProductRow -> B)
    (rows : list A) (ps : list ProductRow) : list B :=
  flat_map (fun r =>
    map (mk r) (List.filter (fun p => String.eqb (pid r) (p_id p)) ps)) rows.

(** The block of [get_cart] under [async with db_pool.acquire()]: read the
    cart and its items from storage, cache the result for five minutes. *)
Definition get_cart_from_storage (cid : nat) : M pyvalue :=
  t ← read_tables;
  match List.filter (fun r => Nat.eqb (c_id r) cid) (cart t) with
  | [] => raise (HTTPException 404 "Cart not found")
  | c :: _ =>
      let result :=
        PyDict [("id", PyStr (str (c_id c)));
                ("user_id", PyStr (c_user_id c));
                ("items", PyList (join_products ci_product_id cart_item_dict
                                    (cart_items_of cid t) (products t)));
                ("created_at", PyStr (isoformat (c_created_at c)))] in
      redis_setex ("cart:" +:+ str cid) 300 (json_default_str result) ;;
      mret result
  end.

(** [GET /api/cart/{cart_id}] *)
Definition get_cart (cid : nat) : M pyvalue :=
  except_Exception "Failed to fetch cart" (
    cached ← redis_get ("cart:" +:+ str cid);
    match cached with
    | Some doc => mret doc
    | None => get_cart_from_storage cid
    end).

(** The body of [create_order] after the cart items have been fetched. *)
Definition create_order_convert (flt : Faults) (order_request : CreateOrderRequest)
    (cart_items : list CartItemRow) : M pyvalue :=
  match cart_items with
  | [] => raise (HTTPException 404 "Cart is empty")
  | _ :: _ =>
      let total :=
        py_sum (map (fun item => Decimal_mul (ci_quantity item) (ci_price item))
                  cart_items) in
      may_fail flt AtInsertOrder ;;
      order_id ← insert_order (user_id order_request) "pending" total "USD";
      for_each cart_items (fun item =>
        may_fail flt AtInsertItem ;; insert_order_item order_id item) ;;
      may_fail flt AtDeleteItems ;;
      delete_cart_items (cart_id order_request) ;;
      may_fail flt AtDeleteCart ;;
      delete_cart (cart_id order_request) ;;
      queue_url ← getenv_ORDER_QUEUE_URL;
      match queue_url with
      | Some (String _ _ as url) =>
          may_fail flt AtSend ;;
          send_message url
            [("event", PyStr "OrderCreated");
             ("order_id", PyStr (str order_id));
             ("user_id", PyStr (user_id order_request));
             ("total", float total);
             ("payment_method_id", PyStr (payment_method_id order_request))]
      | _ => mret tt
      end ;;
      Counter_inc (float total) ;;
      mret (PyDict [("order_id", PyStr (str order_id));
                    ("status", PyStr "pending");
                    ("total", float total);
                    ("message", PyStr "Order created successfully")])
  end.

(** [POST /api/orders] *)
Definition create_order (flt : Faults) (order_request : CreateOrderRequest)
  : M pyvalue :=
  except_Exception "Failed to create order" (
    transaction flt (
      may_fail flt AtSelect ;;
      cart_items ← select_cart_items (cart_id order_request);
      create_order_convert flt order_request cart_items)).

Definition order_item_dict (oi : OrderItemRow) (p : ProductRow)
  : list (string * pyvalue) :=
  [("order_id", PyStr (str (oi_order_id oi)));
   ("product_id", PyStr (oi_product_id oi));
   ("quantity", PyInt (oi_quantity oi));
   ("price", PyDecimal (oi_price oi));
   ("name", PyStr (p_name p));
   ("image_url", PyStr (p_image_url p))].

(** [GET /api/orders/{order_id}] *)
Definition get_order (oid : nat) : M OrderResponse :=
  except_Exception "Failed to fetch order" (
    t ← read_tables;
    match List.filter (fun o => Nat.eqb (o_id o) oid) (orders t) with
    | [] => raise (HTTPException 404 "Order not found")
    | order :: _ =>
        mret {| response_id := str (o_id order);
                response_user_id := o_user_id order;
                status := o_status order;
                total := o_total order;
                currency := o_currency order;
                created_at := o_created_at order;
                response_items :=
                  join_products oi_product_id order_item_dict
                    (order_items_of oid t) (products t) |}
    end).

(** [PATCH /api/orders/{order_id}/status] *)
Definition update_order_status (oid : nat) (new_status : string) : M pyvalue :=
  except_Exception "Failed to update order status" (
    result ← update_orders_status new_status oid;
    if Nat.eqb result 0
    then raise (HTTPException 404 "Order not found")
    else mret (PyDict [("message", PyStr "Order status updated successfully")])).

(** ** Concurrent requests

    Handlers are coroutines: at every [await] another request may run, on a
    connection of its own.  [create_order] is followed here through its
    first [await], the [SELECT]: a task that has its cart items in hand
    resumes later and runs to its commit.  What it wrote before the commit
    is invisible to the others, so the remainder is taken in one step. *)
Inductive task :=
| Start (order_request : CreateOrderRequest)
| Fetched (order_request : CreateOrderRequest) (cart_items : list CartItemRow)
| Done (r : outcome pyvalue).

Definition task_step (flt : Faults) (t : task) (w : World) : task * World :=
  match t with
  | Start req =>
      match (may_fail flt AtSelect ;; select_cart_items (cart_id req)) w with
      | (Return cart_items, w') => (Fetched req cart_items, w')
      | (Raise e, w') =>
          (Done (fst (except_Exception "Failed to create order"
                        (raise (A:=pyvalue) e) w')), w')
      end
  | Fetched req cart_items =>
      let (r, w') :=
        except_Exception "Failed to create order"
          (transaction flt (create_order_convert flt req cart_items)) w in
      (Done r, w')
  | Done r => (t, w)
  end.

(** A schedule names, step by step, the task that runs next. *)
Fixpoint run_schedule (flt : Faults) (schedule : list nat) (ts : list task)
    (w : World) : list task * World :=
  match schedule with
  | [] => (ts, w)
  | i :: schedule' =>
      match ts !! i with
      | Some t =>
          let (t', w') := task_step flt t w in
          run_schedule flt schedule' (<[i := t']> ts) w'
      | None => run_schedule flt schedule' ts w
      end
  end.


(** ** Requests in sequence

    The requests the HTTP layer hands to the handlers; [Later t] lets the
    clock reach [t]. *)
Inductive request :=
| POST_cart (flt : Faults) (cart_request : CreateCartRequest)
| GET_cart (cid : nat)
| POST_orders (flt : Faults) (order_request : CreateOrderRequest)
| GET_order (oid : nat)
| PATCH_order_status (oid : nat) (new_status : string)
| Later (t : Z).

Definition serve (rq : request) (w : World) : World :=
  match rq with
  | POST_cart f r => snd (create_cart f r w)
  | GET_cart c => snd (get_cart c w)
  | POST_orders f r => snd (create_order f r w)
  | GET_order o => snd (get_order o w)
  | PATCH_order_status o s => snd (update_order_status o s w)
  | Later t => at_time t w
  end.

Definition serve_all (rqs : list request) (w : World) : World :=
  fold_left (fun w rq => serve rq w) rqs w.

(** * Properties *)

(** ** What a conversion writes *)

Definition cart_total (its : list CartItemRow) : Decimal :=
  py_sum (map (fun item => Decimal_mul (ci_quantity item) (ci_price item)) its).

Definition new_order (req : CreateOrderRequest) (its : list CartItemRow)
    (w : World) : OrderRow :=
  {| o_id := order_id_seq w; o_user_id := user_id req; o_status := "pending";
     o_total := cart_total its; o_currency := "USD";
     o_created_at := now w; o_updated_at := now w |}.

Definition converted_tables (req : CreateOrderRequest)
    (its : list CartItemRow) (w : World) : Tables :=
  {| cart := List.filter (fun r => negb (Nat.eqb (c_id r) (cart_id req)))
               (cart (tables w));
     cart_items :=
       List.filter (fun r => negb (Nat.eqb (ci_cart_id r) (cart_id req)))
         (cart_items (tables w));
     orders := orders (tables w) ++ [new_order req its w];
     order_items :=
       order_items (tables w) ++ map (order_item_row (order_id_seq w)) its;
     products := products (tables w) |}.

Definition order_created (req : CreateOrderRequest)
    (its : list CartItemRow) (w : World) (url : string) : SqsMessage :=
  {| QueueUrl := url;
     MessageBody :=
       [("event", PyStr "OrderCreated");
        ("order_id", PyStr (str (order_id_seq w)));
        ("user_id", PyStr (user_id req));
        ("total", PyFloat (cart_total its));
        ("payment_method_id", PyStr (payment_method_id req))] |}.

(** The messages one request sends: one when the queue URL is set and not
    empty, none otherwise. *)
Definition published (req : CreateOrderRequest)
    (its : list CartItemRow) (w : World) : list SqsMessage :=
  match ORDER_QUEUE_URL w with
  | Some (String a s) => [order_created req its w (String a s)]
  | _ => []
  end.

Definition order_response (its : list CartItemRow) (w : World)
  : pyvalue :=
  PyDict [("order_id", PyStr (str (order_id_seq w)));
          ("status", PyStr "pending");
          ("total", PyFloat (cart_total its));
          ("message", PyStr "Order created successfully")].

(** Everything outside the tables and the queue is left alone. *)
Definition same_surroundings (w w' : World) : Prop :=
  cart_id_seq w' = cart_id_seq w /\ redis w' = redis w /\ now w' = now w /\
  ORDER_QUEUE_URL w' = ORDER_QUEUE_URL w.

(** The world a committed conversion leaves. *)
Definition converted (req : CreateOrderRequest) (its : list CartItemRow)
    (w : World) : World :=
  set_sqs (sqs w ++ published req its w)
    (set_order_id_seq (S (order_id_seq w))
       (set_tables (converted_tables req its w) w)).

Definition queue_configured (w : World) : bool :=
  match ORDER_QUEUE_URL w with
  | Some (String _ _) => true
  | _ => false
  end.

(** Order items and orders carry identifiers the sequence has already
    handed out. *)
Definition ids_fresh (w : World) : Prop :=
  Forall (fun o => (o_id o < order_id_seq w)%nat) (orders (tables w)) /\
  Forall (fun oi => (oi_order_id oi < order_id_seq w)%nat)
    (order_items (tables w)).

(** ** A shop to run the handlers in *)

Definition shop : World :=
  {| tables := {| cart := []; cart_items := []; orders := [];
                  order_items := [];
                  products := [{| p_id := "p1"; p_name := "Mug";
                                  p_image_url := "mug.png" |}] |};
     cart_id_seq := 1; order_id_seq := 1; redis := ∅; sqs := [];
     now := 1000; ORDER_QUEUE_URL := Some "https://sqs.example/orders" |}.

(** Owner "u1", two of product "p1" at 10.00. *)
Definition cart_u1 : CreateCartRequest :=
  {| cart_request_user_id := "u1";
     items := [{| product_id := "p1"; quantity := 2; price := 1000 |}] |}.

(** One of product "p1" at -5.00: the validator looks at the quantity only. *)
Definition cart_negative : CreateCartRequest :=
  {| cart_request_user_id := "u1";
     items := [{| product_id := "p1"; quantity := 1; price := -500 |}] |}.

Definition order_u1 : CreateOrderRequest :=
  {| user_id := "u1"; cart_id := 1; shipping_address_id := "a1";
     billing_address_id := "a1"; payment_method_id := "pm1" |}.

(** The world after a handler has run. *)
Definition after {A} (m : M A) (w : World) : World := snd (m w).

Definition shop_with_cart : World := after (create_cart no_faults cart_u1) shop.
Definition shop_cart_cached : World := after (get_cart 1) shop_with_cart.
Definition shop_with_order : World :=
  after (create_order no_faults order_u1) shop_with_cart.
Definition shop_completed : World :=
  after (update_order_status 1 "completed") shop_with_order.
Definition order_u1_response : pyvalue :=
  PyDict [("order_id", PyStr "1"); ("status", PyStr "pending");
          ("total", PyFloat 2000);
          ("message", PyStr "Order created successfully")].
Definition shop_negative_cart : World :=
  after (create_cart no_faults cart_negative) shop.

(** Two of "p1" at 10.00 and three of "p9", which no product row knows, at
    2.50. *)
Definition cart_two : CreateCartRequest :=
  {| cart_request_user_id := "u1";
     items := [{| product_id := "p1"; quantity := 2; price := 1000 |};
               {| product_id := "p9"; quantity := 3; price := 250 |}] |}.
Definition shop_two : World := after (create_cart no_faults cart_two) shop.
Definition shop_two_order : World :=
  after (create_order no_faults order_u1) shop_two.

(** Seven of "p1" at 33333333333333333333333333.33: the line has 29
    digits. *)
Definition cart_large : CreateCartRequest :=
  {| cart_request_user_id := "u1";
     items := [{| product_id := "p1"; quantity := 7;
                  price := 3333333333333333333333333333 |}] |}.
Definition shop_large : World := after (create_cart no_faults cart_large) shop.


(** ** Listing the orders of a user *)

(** [dict(order)] for a row of
    [SELECT id, status, total, currency, created_at FROM orders]. *)
Record UserOrder := {
  uo_id : string;
  uo_status : string;
  uo_total : Decimal;
  uo_currency : string;
  uo_created_at : Z
}.

Definition user_order (o : OrderRow) : UserOrder :=
  {| uo_id := str (o_id o); uo_status := o_status o; uo_total := o_total o;
     uo_currency := o_currency o; uo_created_at := o_created_at o |}.

(** [ORDER BY created_at DESC].  Rows created at the same time come in the
    order the sort leaves them; PostgreSQL promises none. *)
Definition newer_first (a b : OrderRow) : Prop :=
  o_created_at b <= o_created_at a.

#[global] Instance newer_first_dec : RelDecision newer_first.
Proof. intros a b. unfold newer_first. apply _. Defined.

Definition orders_of_user (uid : string) (t : Tables) : list OrderRow :=
  List.filter (fun o => String.eqb (o_user_id o) uid) (orders t).

(** [SELECT id, status, total, currency, created_at FROM orders
     WHERE user_id = $1 ORDER BY created_at DESC LIMIT $2 OFFSET $3];
    The driver sends LIMIT and OFFSET as 64-bit integers and raises on
    one that does not fit; PostgreSQL refuses a negative one. *)
Definition select_user_orders (uid : string) (limit offset : Z)
  : M (list OrderRow) := fun w =>
  if (2 ^ 63 <=? limit) || (2 ^ 63 <=? offset)
     || (limit <? 0) || (offset <? 0)
  then (Raise (Exception "LIMIT or OFFSET out of range"), w)
  else (Return (take (Z.to_nat limit)
                  (drop (Z.to_nat offset)
                     (merge_sort newer_first (orders_of_user uid (tables w))))),
        w).

(** [GET /api/orders/user/{user_id}] *)
Definition get_user_orders (uid : string) (limit offset : Z)
  : M (list UserOrder) :=
  except_Exception "Failed to fetch orders" (
    orders ← select_user_orders uid limit offset;
    mret (map user_order orders)).

(** ** Invariants of the store *)

(** Carts and cart items carry identifiers the sequence has already handed
    out. *)
Definition carts_fresh (w : World) : Prop :=
  Forall (fun c => (c_id c < cart_id_seq w)%nat) (cart (tables w)) /\
  Forall (fun ci => (ci_cart_id ci < cart_id_seq w)%nat)
    (cart_items (tables w)).

Definition quantities_positive (w : World) : Prop :=
  Forall (fun ci => 0 < ci_quantity ci) (cart_items (tables w)) /\
  Forall (fun oi => 0 < oi_quantity oi) (order_items (tables w)).

Definition totals_nonnegative (w : World) : Prop :=
  Forall (fun o => 0 <= o_total o) (orders (tables w)).

(** What [create_cart] writes for a request. *)
Definition cart_item_row (cid : nat) (item : CartItem) : CartItemRow :=
  {| ci_cart_id := cid; ci_product_id := product_id item;
     ci_quantity := quantity item; ci_price := price item |}.

Definition new_cart (req : CreateCartRequest) (w : World) : CartRow :=
  {| c_id := cart_id_seq w; c_user_id := cart_request_user_id req;
     c_created_at := now w; c_expires_at := now w + 86400 |}.

(** The world after the cart row and the items [its] have been inserted. *)
Definition cart_written (req : CreateCartRequest) (its : list CartItem)
    (w : World) : World :=
  set_cart_id_seq (S (cart_id_seq w))
    (set_tables
       {| cart := cart (tables w) ++ [new_cart req w];
          cart_items :=
            cart_items (tables w) ++ map (cart_item_row (cart_id_seq w)) its;
          orders := orders (tables w);
          order_items := order_items (tables w);
          products := products (tables w) |} w).

Definition cart_created (req : CreateCartRequest) (w : World) : World :=
  cart_written req (items req) w.

(** The items of a request that are inserted before the first [INSERT]
    that fails, counting positions from [k], and whether all were. *)
Fixpoint stored_items (flt : Faults) (k : nat) (l : list CartItem)
  : list CartItem * bool :=
  match l with
  | [] => ([], true)
  | x :: l' =>
      if flt (AtInsertCartItem k) || (2 ^ 63 <=? quantity x) then ([], false)
      else let (stored, all) := stored_items flt (S k) l' in
           (x :: stored, all)
  end.

(** The sum of a list of amounts, as arithmetic has it. *)
Definition exact_sum (l : list Z) : Z := foldr Z.add 0 l.

(** Quantity times unit price, line by line. *)
Definition cart_lines (its : list CartItemRow) : list Z :=
  map (fun item => ci_quantity item * ci_price item) its.

Definition order_lines (ois : list OrderItemRow) : list Z :=
  map (fun oi => oi_quantity oi * oi_price oi) ois.

(** The lines add up, in absolute value, to fewer than 29 digits: every
    product and every partial sum then fits the decimal context. *)
Definition fits_context (lines : list Z) : Prop :=
  exact_sum (map Z.abs lines) < 10 ^ 28.

(** Whether a run of [create_order] gets past the send. *)
Definition passes_send (flt : Faults) (req : CreateOrderRequest) (w : World)
  : bool :=
  match cart_items_of (cart_id req) (tables w) with
  | [] => false
  | _ :: _ =>
      negb (flt AtSelect || flt AtInsertOrder || flt AtInsertItem
            || flt AtDeleteItems || flt AtDeleteCart
            || (queue_configured w && flt AtSend))
  end.

(** The rows of an inner join on the product identifier, written as the
    pairs of a row and a product that agree on it. *)
Definition inner_join {A B} (pid : A -> string) (mk : A -> ProductRow -> B)
    (rows : list A) (ps : list ProductRow) : list B :=
  map (fun rp => mk (fst rp) (snd rp))
    (List.filter (fun rp => bool_decide (pid (fst rp) = p_id (snd rp)))
       (list_prod rows ps)).

Definition valid_cart_request (req : CreateCartRequest) : Prop :=
  Forall (fun item => 0 < quantity item) (items req).

(** The document [get_cart] builds from storage. *)
Definition cart_document (c : CartRow) (t : Tables) : pyvalue :=
  PyDict [("id", PyStr (str (c_id c)));
          ("user_id", PyStr (c_user_id c));
          ("items", PyList (join_products ci_product_id cart_item_dict
                              (cart_items_of (c_id c) t) (products t)));
          ("created_at", PyStr (isoformat (c_created_at c)))].

(** The order request of user [uid] for the cart [cid]. *)
Definition order_for (uid : string) (cid : nat) : CreateOrderRequest :=
  {| user_id := uid; cart_id := cid; shipping_address_id := "a1";
     billing_address_id := "a1"; payment_method_id := "pm1" |}.

(** Whether [redis_get key] finds a live entry. *)
Definition cache_live (key : string) (w : World) : bool :=
  match redis w !! key with
  | Some (_, expiry) => now w <? expiry
  | None => false
  end.

(** A request sequence to run the invariants on. *)
Definition busy_day : list request :=
  [POST_cart no_faults cart_u1; GET_cart 1; POST_orders no_faults order_u1;
   PATCH_order_status 1 "completed"; POST_cart no_faults cart_negative;
   POST_orders no_faults
     {| user_id := "u2"; cart_id := 2; shipping_address_id := "a2";
        billing_address_id := "a2"; payment_method_id := "pm2" |};
   Later 5000; GET_cart 2].

(** Three orders: two of "u1", made at 1000 and at 2000, and one of "u2",
    made at 3000 from a cart that "u1" owns. *)
Definition listing_day : list request :=
  [POST_cart no_faults cart_u1; POST_orders no_faults order_u1; Later 2000;
   POST_cart no_faults cart_two; POST_orders no_faults (order_for "u1" 2);
   Later 3000;
   POST_cart no_faults cart_u1; POST_orders no_faults (order_for "u2" 3)].
Definition shop_listing : World := serve_all listing_day shop.

(** ** Running the monad *)

Lemma bind_run {A B} (m : M A) (k : A -> M B) (w : World) :
  (m ≫= k) w =
  match m w with
  | (Return a, w') => k a w'
  | (Raise e, w') => (Raise e, w')
  end.
Proof. reflexivity. Qed.

Lemma ret_run {A} (a : A) (w : World) : mret (M:=M) a w = (Return a, w).
Proof. reflexivity. Qed.

Lemma may_fail_run flt p (w : World) :
  may_fail flt p w =
  if flt p then (Raise (Exception "infrastructure failure"), w)
  else (Return tt, w).
Proof. reflexivity. Qed.

Ltac mrun :=
  repeat first [rewrite bind_run | rewrite ret_run | rewrite may_fail_run].

Lemma rollback_same (w : World) : rollback w w = w.
Proof. now destruct w. Qed.

Lemma for_each_insert_order_items flt oid (l : list CartItemRow) (w : World) :
  for_each l (fun item => may_fail flt AtInsertItem ;;
                          insert_order_item oid item) w =
  match l with
  | [] => (Return tt, w)
  | _ :: _ =>
      if flt AtInsertItem
      then (Raise (Exception "infrastructure failure"), w)
      else (Return tt,
            set_tables (set_order_items
                          (order_items (tables w) ++ map (order_item_row oid) l)
                          (tables w)) w)
  end.
Proof.
  revert w. induction l as [|a l IH]; intros w; [reflexivity|].
  cbn [for_each]. mrun.
  destruct (flt AtInsertItem) eqn:Hf; [reflexivity|].
  unfold insert_order_item at 1. rewrite IH.
  destruct l as [|b l]; [reflexivity|].
  cbn. now rewrite <- app_assoc.
Qed.

(** ** The conversion, step by step *)

(** The run of the conversion, once the cart items are in hand, point of
    failure by point of failure. *)
Lemma convert_run flt req (its : list CartItemRow) (w : World) :
  its <> [] ->
  transaction flt (create_order_convert flt req its) w =
  if flt AtInsertOrder
  then (Raise (Exception "infrastructure failure"), w)
  else if flt AtInsertItem || flt AtDeleteItems || flt AtDeleteCart
          || (queue_configured w && flt AtSend)
  then (Raise (Exception "infrastructure failure"),
        set_order_id_seq (S (order_id_seq w)) w)
  else if cart_total its <? 0
  then (Raise (Exception
                 "Counters can only be incremented by non-negative amounts."),
        rollback w (converted req its w))
  else if flt AtCommit
  then (Raise (Exception "commit failed"), rollback w (converted req its w))
  else (Return (order_response its w), converted req its w).
Proof.
  intros Hne. destruct its as [|i l]; [done|]. clear Hne.
  unfold create_order_convert, transaction, converted, published,
    queue_configured, order_response.
  fold (cart_total (i :: l)). mrun.
  destruct (flt AtInsertOrder); [now rewrite rollback_same|].
  unfold insert_order at 1. mrun. rewrite for_each_insert_order_items.
  destruct w as [[c ci o oi p] cs os rd q t env].
  destruct (flt AtInsertItem); [reflexivity|]. mrun.
  destruct (flt AtDeleteItems); [reflexivity|].
  unfold delete_cart_items at 1. mrun.
  destruct (flt AtDeleteCart); [reflexivity|].
  unfold delete_cart at 1, getenv_ORDER_QUEUE_URL at 1. mrun.
  unfold Counter_inc, float, float_ltb0, raise.
  cbn -[cart_total Z.ltb].
  destruct env as [[|a s]|]; mrun;
    try (destruct (flt AtSend); [reflexivity|]; unfold send_message);
    cbn -[cart_total Z.ltb];
    (destruct (cart_total (i :: l) <? 0); [rewrite ?app_nil_r; reflexivity|]);
    mrun; (destruct (flt AtCommit); rewrite ?app_nil_r; reflexivity).
Qed.

Lemma create_order_run flt req (w : World) :
  create_order flt req w =
  except_Exception "Failed to create order" (fun w =>
    if flt AtSelect then (Raise (Exception "infrastructure failure"), w)
    else transaction flt
           (create_order_convert flt req (cart_items_of (cart_id req) (tables w)))
           w) w.
Proof.
  unfold create_order, except_Exception, transaction. mrun.
  destruct (flt AtSelect); [now rewrite rollback_same|].
  unfold select_cart_items. reflexivity.
Qed.

Lemma convert_empty flt req (w : World) :
  transaction flt (create_order_convert flt req []) w =
  (Raise (HTTPException 404 "Cart is empty"), w).
Proof. unfold transaction; cbn. now rewrite rollback_same. Qed.

Lemma create_order_empty flt req (w : World) :
  cart_items_of (cart_id req) (tables w) = [] ->
  create_order flt req w =
  (Raise (if flt AtSelect
          then HTTPException 500 "Failed to create order"
          else HTTPException 404 "Cart is empty"), w).
Proof.
  intros Hits. rewrite create_order_run. unfold except_Exception.
  destruct (flt AtSelect); [reflexivity|].
  now rewrite Hits, convert_empty.
Qed.

(** A successful [create_order], read backwards. *)
Lemma create_order_Return flt req (w w' : World) r :
  create_order flt req w = (Return r, w') ->
  let its := cart_items_of (cart_id req) (tables w) in
  its <> [] /\ r = order_response its w /\ w' = converted req its w /\
  0 <= cart_total its.
Proof.
  rewrite create_order_run. unfold except_Exception. cbv zeta.
  destruct (flt AtSelect); [discriminate|].
  destruct (cart_items_of (cart_id req) (tables w)) as [|i l] eqn:Hits.
  { rewrite convert_empty. discriminate. }
  rewrite convert_run by discriminate.
  destruct (flt AtInsertOrder); [discriminate|].
  destruct (_ || _); [discriminate|].
  destruct (cart_total (i :: l) <? 0) eqn:Hneg; [discriminate|].
  destruct (flt AtCommit); [discriminate|].
  intros [= <- <-]. repeat split; [discriminate | lia].
Qed.

(** A failed [create_order], read backwards: the tables are those of the
    start; the queue has the message if the failure came after the send. *)
Lemma create_order_Raise flt req (w w' : World) e :
  create_order flt req w = (Raise e, w') ->
  let its := cart_items_of (cart_id req) (tables w) in
  tables w' = tables w /\ same_surroundings w w' /\
  (sqs w' = sqs w \/
   sqs w' = sqs w ++ published req its w /\
   (cart_total its < 0 \/ flt AtCommit = true)).
Proof.
  rewrite create_order_run. unfold except_Exception, same_surroundings.
  cbv zeta.
  destruct (flt AtSelect); [intros [= <- <-]; tauto|].
  destruct (cart_items_of (cart_id req) (tables w)) as [|i l] eqn:Hits.
  { rewrite convert_empty. intros [= <- <-]; tauto. }
  rewrite convert_run by discriminate.
  destruct (flt AtInsertOrder); [intros [= <- <-]; tauto|].
  destruct (_ || _); [intros [= <- <-]; cbn; tauto|].
  destruct (cart_total (i :: l) <? 0) eqn:Hneg.
  { intros [= <- <-]. cbn -[cart_total]. split; [reflexivity|].
    split; [repeat split|]. right. split; [reflexivity | lia]. }
  destruct (flt AtCommit); [|discriminate].
  intros [= <- <-]. cbn. split; [reflexivity|]. split; [repeat split|].
  right. split; [reflexivity | tauto].
Qed.

(** ** Fresh identifiers *)

Lemma filter_all_false {A} (f : A -> bool) (l : list A) :
  Forall (fun x => f x = false) l -> List.filter f l = [].
Proof.
  induction 1 as [|x l Hx _ IH]; [reflexivity|]. cbn. now rewrite Hx.
Qed.

Lemma filter_all_true {A} (f : A -> bool) (l : list A) :
  Forall (fun x => f x = true) l -> List.filter f l = l.
Proof.
  induction 1 as [|x l Hx _ IH]; [reflexivity|]. cbn. now rewrite Hx, IH.
Qed.

(** The order items of a fresh order are the copies of the cart items. *)
Lemma order_items_of_converted req (its : list CartItemRow) (w : World) :
  ids_fresh w ->
  order_items_of (order_id_seq w) (converted_tables req its w) =
  map (order_item_row (order_id_seq w)) its.
Proof.
  intros [_ Hfresh]. unfold order_items_of, converted_tables.
  cbn [order_items]. rewrite List.filter_app.
  rewrite filter_all_false, filter_all_true; [reflexivity | |].
  - apply List.Forall_map, Forall_forall. intros it _. cbn.
    apply Nat.eqb_refl.
  - eapply List.Forall_impl; [|exact Hfresh]. cbn. intros oi Hlt.
    apply Nat.eqb_neq. lia.
Qed.

(** ** Decimal arithmetic within the context precision *)

Lemma Decimal_round_fits (v : Z) : Z.abs v < 10 ^ 28 -> Decimal_round v = v.
Proof.
  intros Hv. unfold Decimal_round. cbv zeta.
  destruct (Z.abs v <? 10 ^ 28) eqn:E; [reflexivity | lia].
Qed.

Lemma exact_sum_cons (x : Z) (l : list Z) :
  exact_sum (x :: l) = x + exact_sum l.
Proof. reflexivity. Qed.

Lemma exact_sum_abs_nonneg (l : list Z) : 0 <= exact_sum (map Z.abs l).
Proof.
  induction l as [|x l IH]; [reflexivity|].
  cbn [map]. rewrite exact_sum_cons. lia.
Qed.

Lemma fold_Decimal_add_fits {A} (q p : A -> Z) (l : list A) (acc : Z) :
  Z.abs acc + exact_sum (map Z.abs (map (fun x => q x * p x) l)) < 10 ^ 28 ->
  fold_left Decimal_add (map (fun x => Decimal_mul (q x) (p x)) l) acc =
  acc + exact_sum (map (fun x => q x * p x) l).
Proof.
  revert acc. induction l as [|x l IH]; intros acc Hfit;
    cbn [map fold_left] in *.
  - change (exact_sum []) with 0. lia.
  - rewrite exact_sum_cons in *.
    pose proof (exact_sum_abs_nonneg (map (fun x => q x * p x) l)).
    assert (Decimal_mul (q x) (p x) = q x * p x) as ->
      by (apply Decimal_round_fits; lia).
    assert (Decimal_add acc (q x * p x) = acc + q x * p x) as ->
      by (apply Decimal_round_fits; lia).
    rewrite IH by lia. lia.
Qed.

(** Within the context precision the total the code computes is the exact
    sum of the lines. *)
Lemma cart_total_exact (its : list CartItemRow) :
  fits_context (cart_lines its) -> cart_total its = exact_sum (cart_lines its).
Proof.
  unfold fits_context, cart_total, cart_lines, py_sum. intros Hfit.
  now rewrite fold_Decimal_add_fits.
Qed.

Lemma order_lines_copies oid (its : list CartItemRow) :
  order_lines (map (order_item_row oid) its) = cart_lines its.
Proof. unfold order_lines, cart_lines. now rewrite map_map. Qed.

(** [ids_fresh] holds in the empty shop and every handler keeps it. *)
Lemma ids_fresh_shop : ids_fresh shop.
Proof. split; constructor. Qed.

Lemma ids_fresh_same (w w' : World) :
  orders (tables w') = orders (tables w) ->
  order_items (tables w') = order_items (tables w) ->
  (order_id_seq w <= order_id_seq w')%nat ->
  ids_fresh w -> ids_fresh w'.
Proof.
  intros Ho Hoi Hle [H1 H2]. unfold ids_fresh. rewrite Ho, Hoi.
  split; (eapply List.Forall_impl; [|eassumption]); cbn; intros; lia.
Qed.

Lemma create_order_ids_fresh flt req (w : World) :
  ids_fresh w -> ids_fresh (after (create_order flt req) w).
Proof.
  intros Hw. unfold after.
  destruct (create_order flt req w) as [[r|e] w'] eqn:Hrun; cbn [snd].
  - apply create_order_Return in Hrun as (_ & _ & -> & _).
    destruct Hw as [H1 H2]. split; cbn; apply Forall_app; split.
    + eapply List.Forall_impl; [|exact H1]. cbn. intros; lia.
    + repeat constructor.
    + eapply List.Forall_impl; [|exact H2]. cbn. intros; lia.
    + apply List.Forall_map, Forall_forall. intros it _. cbn. lia.
  - revert Hrun. rewrite create_order_run. unfold except_Exception.
    destruct (flt AtSelect); [now intros [= _ <-]|].
    destruct (cart_items_of (cart_id req) (tables w)) as [|i l].
    { rewrite convert_empty. now intros [= _ <-]. }
    rewrite convert_run by discriminate.
    destruct (flt AtInsertOrder); [now intros [= _ <-]|].
    assert (Hseq : ids_fresh (set_order_id_seq (S (order_id_seq w)) w)).
    { eapply ids_fresh_same; [..|exact Hw]; cbn; auto. }
    destruct (_ || _); [now intros [= _ <-]|].
    destruct (_ <? _); [now intros [= _ <-]|].
    destruct (flt AtCommit); [now intros [= _ <-]|discriminate].
Qed.

Lemma snd_except_Exception {A} detail (m : M A) (w : World) :
  snd (except_Exception detail m w) = snd (m w).
Proof. unfold except_Exception. now destruct (m w) as [[?|[]] ?]. Qed.

(** ** Creating a cart *)

Lemma set_cart_items_nil (w : World) :
  set_tables (set_cart_items (cart_items (tables w) ++ []) (tables w)) w = w.
Proof.
  destruct w as [[c ci o oi p] cs os rd q t env]. cbn. now rewrite app_nil_r.
Qed.

Lemma for_each_insert_cart_item_run flt cid (l : list CartItem) :
  forall k (w : World),
    exists o,
      for_each (combine (seq k (length l)) l)
        (fun ki => may_fail flt (AtInsertCartItem (fst ki)) ;;
                   insert_cart_item cid (snd ki)) w =
      (o, set_tables (set_cart_items
                        (cart_items (tables w) ++
                         map (cart_item_row cid) (fst (stored_items flt k l)))
                        (tables w)) w) /\
      (if snd (stored_items flt k l) then o = Return tt
       else exists msg, o = Raise (Exception msg)).
Proof.
  induction l as [|x l IH]; intros k w.
  - exists (Return tt). cbn. now rewrite set_cart_items_nil.
  - cbn [length seq combine for_each stored_items]. mrun. cbn [fst snd].
    destruct (flt (AtInsertCartItem k)) eqn:Hf; cbn [orb].
    { eexists. cbn. rewrite set_cart_items_nil. eauto. }
    unfold insert_cart_item at 1.
    destruct (2 ^ 63 <=? quantity x) eqn:Hq.
    { eexists. cbn. rewrite set_cart_items_nil. eauto. }
    destruct (IH (S k) (set_tables (set_cart_items
                (cart_items (tables w) ++ [cart_item_row cid x]) (tables w)) w))
      as (o & Hrun & Ho).
    exists o. unfold cart_item_row at 1 in Hrun. rewrite Hrun.
    destruct (stored_items flt (S k) l) as [stored all]. cbn in *.
    now rewrite <- app_assoc.
Qed.

Lemma valid_cart_request_forallb req :
  valid_cart_request req ->
  forallb (fun item => bool_decide
             (is_Some (quantity_must_be_positive (quantity item))))
    (items req) = true.
Proof.
  unfold valid_cart_request. induction 1 as [|x l Hx _ IH]; [reflexivity|].
  cbn. rewrite IH, andb_true_r. apply bool_decide_eq_true.
  unfold quantity_must_be_positive.
  destruct (quantity x <=? 0) eqn:Hq; [lia | eauto].
Qed.

(** The run of [create_cart] on a request that passes validation. *)
Lemma create_cart_run flt req (w : World) :
  valid_cart_request req ->
  create_cart flt req w =
  if flt AtInsertCart
  then (Raise (HTTPException 500 "Failed to create cart"), w)
  else
    (if snd (stored_items flt 0 (items req))
     then Return (PyDict [("cart_id", PyStr (str (cart_id_seq w)));
                          ("message", PyStr "Cart created successfully")])
     else Raise (HTTPException 500 "Failed to create cart"),
     cart_written req (fst (stored_items flt 0 (items req))) w).
Proof.
  intros Hv. unfold create_cart. rewrite valid_cart_request_forallb by exact Hv.
  unfold except_Exception, enumerate. mrun.
  destruct (flt AtInsertCart); [reflexivity|].
  unfold insert_cart at 1. mrun.
  match goal with |- context [for_each _ _ ?w0] =>
    destruct (for_each_insert_cart_item_run flt (cart_id_seq w) (items req) 0 w0)
      as (o & -> & Ho) end.
  destruct (stored_items flt 0 (items req)) as [stored all]. cbn [fst snd] in *.
  destruct w as [[c ci oo oi p] cs os rd q t env].
  destruct all; [subst o | destruct Ho as [msg ->]]; reflexivity.
Qed.

Lemma create_cart_invalid flt req (w : World) :
  ~ valid_cart_request req ->
  create_cart flt req w =
  (Raise (HTTPException 422 "Quantity must be positive"), w).
Proof.
  intros Hv. unfold create_cart.
  destruct (forallb _ _) eqn:Hall; [|reflexivity].
  exfalso. apply Hv. unfold valid_cart_request.
  apply Forall_forall. intros x Hx.
  rewrite forallb_forall in Hall. apply list_elem_of_In in Hx.
  specialize (Hall x Hx). apply bool_decide_eq_true in Hall.
  unfold quantity_must_be_positive in Hall.
  destruct (quantity x <=? 0) eqn:Hq; [now destruct Hall | lia].
Qed.

Lemma stored_items_all flt k (l : list CartItem) :
  snd (stored_items flt k l) = true -> fst (stored_items flt k l) = l.
Proof.
  revert k. induction l as [|x l IH]; intros k; [reflexivity|]. cbn.
  destruct (_ || _); [discriminate|].
  specialize (IH (S k)). destruct (stored_items flt (S k) l) as [stored all].
  cbn in *. intros Hall. now rewrite IH.
Qed.

Lemma stored_items_sublist flt k (l : list CartItem) (P : CartItem -> Prop) :
  Forall P l -> Forall P (fst (stored_items flt k l)).
Proof.
  intros Hl. revert k. induction Hl as [|x l Hx _ IH]; intros k; cbn;
    [constructor|].
  destruct (_ || _); [constructor|].
  specialize (IH (S k)). destruct (stored_items flt (S k) l) as [stored all].
  cbn in *. now constructor.
Qed.

Lemma stored_items_no_faults (l : list CartItem) k :
  Forall (fun item => quantity item < 2 ^ 63) l ->
  stored_items no_faults k l = (l, true).
Proof.
  intros Hl. revert k. induction Hl as [|x l Hx _ IH]; intros k; cbn;
    [reflexivity|].
  destruct (2 ^ 63 <=? quantity x) eqn:Hq; [lia|]. now rewrite IH.
Qed.

(** What [create_cart] can do to the store. *)
Lemma create_cart_cases flt req (w : World) :
  snd (create_cart flt req w) = w \/
  exists its, Forall (fun item => 0 < quantity item) its /\
              snd (create_cart flt req w) = cart_written req its w.
Proof.
  destruct (decide (Forall (fun item => 0 < quantity item) (items req)))
    as [Hv|Hv].
  - rewrite create_cart_run by exact Hv.
    destruct (flt AtInsertCart); [now left|]. right.
    eexists. split; [|reflexivity]. now apply stored_items_sublist.
  - left. now rewrite create_cart_invalid.
Qed.

Lemma serve_ids_fresh rq (w : World) : ids_fresh w -> ids_fresh (serve rq w).
Proof.
  intros Hw. destruct rq as [flt r|c|f r|o|o st|t]; cbn [serve].
  - destruct (create_cart_cases flt r w) as [->|(its & _ & ->)]; [exact Hw|].
    eapply ids_fresh_same; [| | |exact Hw]; cbn; auto.
  - unfold get_cart. rewrite snd_except_Exception, bind_run.
    unfold redis_get at 1.
    destruct (match redis w !! _ with Some _ => _ | None => _ end);
      [exact Hw|].
    unfold get_cart_from_storage. rewrite bind_run. unfold read_tables at 1.
    destruct (List.filter _ _); [exact Hw|].
    eapply ids_fresh_same; [| | |exact Hw]; cbn; auto.
  - apply create_order_ids_fresh, Hw.
  - unfold get_order. rewrite snd_except_Exception, bind_run.
    unfold read_tables at 1. now destruct (List.filter _ _).
  - unfold update_order_status.
    rewrite snd_except_Exception, bind_run.
    unfold update_orders_status at 1.
    assert (Hw' : ids_fresh (set_tables (set_orders
      (map (fun o0 => if Nat.eqb (o_id o0) o then set_status st (now w) o0
                      else o0) (orders (tables w))) (tables w)) w)).
    { destruct Hw as [H1 H2]. split; cbn; [|exact H2].
      apply List.Forall_map. eapply List.Forall_impl; [|exact H1].
      cbn. intros o0 Hlt. now destruct (Nat.eqb (o_id o0) o). }
    now destruct (Nat.eqb _ 0).
  - exact Hw.
Qed.

(** Every world the shop can reach keeps its identifiers fresh. *)
Lemma serve_all_ids_fresh rqs (w : World) :
  ids_fresh w -> ids_fresh (serve_all rqs w).
Proof.
  revert w. induction rqs as [|rq rqs IH]; intros w Hw; [exact Hw|].
  cbn. apply IH, serve_ids_fresh, Hw.
Qed.

(** ** Order creation *)

(** The cart of "u1" (two of "p1" at 10.00) becomes one pending order of
    20.00 with one order item, one OrderCreated message is sent, and, the
    cache being empty, the cart can no longer be fetched. *)
Example cart_u1_converted :
  create_order no_faults order_u1 shop_with_cart =
  (Return order_u1_response, shop_with_order) /\
  orders (tables shop_with_order) =
  [{| o_id := 1; o_user_id := "u1"; o_status := "pending"; o_total := 2000;
      o_currency := "USD"; o_created_at := 1000; o_updated_at := 1000 |}] /\
  order_items (tables shop_with_order) =
  [{| oi_order_id := 1; oi_product_id := "p1"; oi_quantity := 2;
      oi_price := 1000 |}] /\
  length (sqs shop_with_order) = 1%nat /\
  fst (get_cart 1 shop_with_order) =
  Raise (HTTPException 404 "Cart not found").
Proof. vm_compute. repeat split. Qed.

(** C9: every order that [create_order] creates is given the currency code
    "USD", whatever the request says and whatever prices the cart items
    hold: the call appends one order row, the one the response names, and
    its currency is "USD". *)
Theorem create_order_currency_USD flt req (w w' : World) r :
  create_order flt req w = (Return r, w') ->
  exists o, orders (tables w') = orders (tables w) ++ [o] /\
            py_get "order_id" r = Some (PyStr (str (o_id o))) /\
            o_currency o = "USD".
Proof.
  intros (_ & -> & -> & _)%create_order_Return.
  eexists. cbn. repeat split.
Qed.

Lemma create_order_currency_USD_witness :
  exists o, orders (tables shop_with_order) =
            orders (tables shop_with_cart) ++ [o] /\
            py_get "order_id" order_u1_response
            = Some (PyStr (str (o_id o))) /\
            o_currency o = "USD".
Proof.
  apply (create_order_currency_USD no_faults order_u1 shop_with_cart).
  vm_compute. reflexivity.
Defined.

(** C7, as the code has it: for every order that [create_order] creates
    from cart lines that fit the decimal context (the quantities times the
    unit prices add up, in absolute value, to fewer than 29 digits of
    hundredths), the total on the order row equals the exact sum, over the
    order items carrying its identifier, of quantity times unit price.
    The store is one in which no order item already carries an identifier
    the sequence has yet to hand out. *)
Theorem create_order_total_is_sum flt req (w w' : World) r :
  ids_fresh w ->
  fits_context (cart_lines (cart_items_of (cart_id req) (tables w))) ->
  create_order flt req w = (Return r, w') ->
  exists o, orders (tables w') = orders (tables w) ++ [o] /\
            py_get "order_id" r = Some (PyStr (str (o_id o))) /\
            o_total o =
            exact_sum (order_lines (order_items_of (o_id o) (tables w'))).
Proof.
  intros Hw Hfit (_ & -> & -> & _)%create_order_Return.
  eexists. cbn [converted set_sqs set_order_id_seq set_tables tables].
  split; [reflexivity|]. split; [reflexivity|].
  cbn [new_order o_id o_total].
  rewrite order_items_of_converted by exact Hw.
  now rewrite order_lines_copies, cart_total_exact.
Qed.

Lemma create_order_total_is_sum_witness :
  exists o, orders (tables shop_two_order) = orders (tables shop_two) ++ [o] /\
            py_get "order_id"
              (PyDict [("order_id", PyStr "1"); ("status", PyStr "pending");
                       ("total", PyFloat 2750);
                       ("message", PyStr "Order created successfully")])
            = Some (PyStr (str (o_id o))) /\
            o_total o =
            exact_sum (order_lines (order_items_of (o_id o)
                                      (tables shop_two_order))).
Proof.
  apply (create_order_total_is_sum no_faults order_u1 shop_two).
  - split; vm_compute; repeat constructor.
  - vm_compute. reflexivity.
  - vm_compute. reflexivity.
Defined.

(** C7 fails as stated: a cart of seven items at
    33333333333333333333333333.33 each is converted; the line has 29
    digits, the decimal context rounds it to 28, and the total stored on
    the order is one hundredth short of the sum over its order items. *)
Lemma create_order_total_rounded :
  exists r w' o,
    create_order no_faults order_u1 shop_large = (Return r, w') /\
    orders (tables w') = [o] /\
    o_total o = 23333333333333333333333333330 /\
    exact_sum (order_lines (order_items_of (o_id o) (tables w'))) =
    23333333333333333333333333331.
Proof. do 3 eexists. vm_compute. repeat split. Qed.

(** C2, as the code has it: a successful [create_order] writes no outbox
    row.  When ORDER_QUEUE_URL is set and not empty it sends one
    OrderCreated message, carrying the new order's identifier, to the queue
    during the request and before the commit; otherwise it emits no event
    at all. *)
Theorem create_order_sends_in_request flt req (w w' : World) r :
  create_order flt req w = (Return r, w') ->
  exists o,
    orders (tables w') = orders (tables w) ++ [o] /\
    sqs w' =
    sqs w ++
    match ORDER_QUEUE_URL w with
    | Some (String a s) =>
        [{| QueueUrl := String a s;
            MessageBody :=
              [("event", PyStr "OrderCreated");
               ("order_id", PyStr (str (o_id o)));
               ("user_id", PyStr (user_id req));
               ("total", PyFloat (o_total o));
               ("payment_method_id", PyStr (payment_method_id req))] |}]
    | _ => []
    end.
Proof.
  intros (_ & -> & -> & _)%create_order_Return.
  eexists. split; reflexivity.
Qed.

Lemma create_order_sends_in_request_witness :
  exists o,
    orders (tables shop_with_order) = orders (tables shop_with_cart) ++ [o] /\
    sqs shop_with_order =
    sqs shop_with_cart ++
    match ORDER_QUEUE_URL shop_with_cart with
    | Some (String a s) =>
        [{| QueueUrl := String a s;
            MessageBody :=
              [("event", PyStr "OrderCreated");
               ("order_id", PyStr (str (o_id o)));
               ("user_id", PyStr (user_id order_u1));
               ("total", PyFloat (o_total o));
               ("payment_method_id", PyStr (payment_method_id order_u1))] |}]
    | _ => []
    end.
Proof.
  apply (create_order_sends_in_request no_faults order_u1 shop_with_cart
           shop_with_order order_u1_response).
  vm_compute. reflexivity.
Defined.

(** C2 fails as stated: in the shop with the cart of "u1", the successful
    [create_order] has put the OrderCreated message on the queue by the
    time it returns. *)
Lemma create_order_delivers_during_request :
  exists r m,
    create_order no_faults order_u1 shop_with_cart = (Return r, shop_with_order) /\
    sqs shop_with_cart = [] /\
    sqs shop_with_order = [m] /\
    dict_get "event" (MessageBody m) = Some (PyStr "OrderCreated").
Proof. do 2 eexists. vm_compute. repeat split. Qed.

(** C3, as the code has it: when [create_order] fails, the storage
    transaction is rolled back (the tables are those of the start, so no
    order or order item persists and the cart and its items are
    unchanged) and the cache is untouched.  The message is not part of
    the transaction: when the run got past the send, which then leaves
    only the order-value counter refusing a negative total or the commit
    as the point of failure, the OrderCreated message of the order that
    was rolled back has been added to the queue and stays there; when the
    run failed earlier, the queue is unchanged. *)
Theorem create_order_failure_rolls_back flt req (w w' : World) e :
  create_order flt req w = (Raise e, w') ->
  tables w' = tables w /\ redis w' = redis w /\
  sqs w' =
  sqs w ++
  (if passes_send flt req w
   then match ORDER_QUEUE_URL w with
        | Some (String a s) =>
            [{| QueueUrl := String a s;
                MessageBody :=
                  [("event", PyStr "OrderCreated");
                   ("order_id", PyStr (str (order_id_seq w)));
                   ("user_id", PyStr (user_id req));
                   ("total",
                    PyFloat (cart_total
                               (cart_items_of (cart_id req) (tables w))));
                   ("payment_method_id",
                    PyStr (payment_method_id req))] |}]
        | _ => []
        end
   else []) /\
  (passes_send flt req w = true ->
   cart_total (cart_items_of (cart_id req) (tables w)) < 0 \/
   flt AtCommit = true).
Proof.
  rewrite create_order_run. unfold except_Exception, passes_send.
  destruct (cart_items_of (cart_id req) (tables w)) as [|i l] eqn:Hits.
  { destruct (flt AtSelect); [|rewrite convert_empty]; intros [= <- <-];
      rewrite app_nil_r; repeat split; discriminate. }
  destruct (flt AtSelect) eqn:Hsel.
  { intros [= <- <-]. cbn [orb negb]. rewrite app_nil_r.
    repeat split; discriminate. }
  rewrite convert_run by discriminate.
  destruct (flt AtInsertOrder) eqn:Hio.
  { intros [= <- <-]. cbn [orb negb]. rewrite app_nil_r.
    repeat split; discriminate. }
  cbn [orb].
  destruct (flt AtInsertItem || flt AtDeleteItems || flt AtDeleteCart
            || (queue_configured w && flt AtSend)) eqn:Hmid.
  { intros [= <- <-]. cbn [negb]. rewrite app_nil_r. cbn.
    repeat split; discriminate. }
  cbn [negb].
  destruct (cart_total (i :: l) <? 0) eqn:Hneg.
  { intros [= <- <-]. split; [reflexivity|]. split; [reflexivity|].
    split; [reflexivity|]. intros _. left. lia. }
  destruct (flt AtCommit); [|discriminate].
  intros [= <- <-]. split; [reflexivity|]. split; [reflexivity|].
  split; [reflexivity|]. intros _. now right.
Qed.

Lemma create_order_failure_rolls_back_witness :
  tables (after (create_order no_faults order_u1) shop_negative_cart) =
  tables shop_negative_cart /\
  redis (after (create_order no_faults order_u1) shop_negative_cart) =
  redis shop_negative_cart /\
  sqs (after (create_order no_faults order_u1) shop_negative_cart) =
  sqs shop_negative_cart ++
  (if passes_send no_faults order_u1 shop_negative_cart
   then match ORDER_QUEUE_URL shop_negative_cart with
        | Some (String a s) =>
            [{| QueueUrl := String a s;
                MessageBody :=
                  [("event", PyStr "OrderCreated");
                   ("order_id", PyStr (str (order_id_seq shop_negative_cart)));
                   ("user_id", PyStr (user_id order_u1));
                   ("total",
                    PyFloat (cart_total
                               (cart_items_of (cart_id order_u1)
                                  (tables shop_negative_cart))));
                   ("payment_method_id",
                    PyStr (payment_method_id order_u1))] |}]
        | _ => []
        end
   else []) /\
  (passes_send no_faults order_u1 shop_negative_cart = true ->
   cart_total (cart_items_of (cart_id order_u1) (tables shop_negative_cart))
   < 0 \/ no_faults AtCommit = true).
Proof.
  apply (create_order_failure_rolls_back no_faults order_u1 shop_negative_cart
           _ (HTTPException 500 "Failed to create order")).
  vm_compute. reflexivity.
Defined.

(** C3 fails as stated: a cart holding one item priced -5.00 is converted
    up to and including the send, then the counter refuses the negative
    total; the request fails and the tables are rolled back, but the
    OrderCreated message for the order that no longer exists is on the
    queue. *)
Lemma create_order_failure_leaves_event :
  exists w' m,
    create_order no_faults order_u1 shop_negative_cart =
    (Raise (HTTPException 500 "Failed to create order"), w') /\
    tables w' = tables shop_negative_cart /\
    orders (tables w') = [] /\
    sqs shop_negative_cart = [] /\
    sqs w' = [m] /\
    dict_get "event" (MessageBody m) = Some (PyStr "OrderCreated").
Proof. do 2 eexists. vm_compute. repeat split. Qed.

(** C4, as the code has it: [create_order] on a cart that has no cart
    items, because the cart is absent or was converted before, creates
    nothing and fails with 404 "Cart is empty" (500 if the read itself
    failed); nothing in the world changes.  Expiry plays no part. *)
Theorem create_order_without_items flt req (w : World) :
  cart_items_of (cart_id req) (tables w) = [] ->
  create_order flt req w =
  (Raise (if flt AtSelect
          then HTTPException 500 "Failed to create order"
          else HTTPException 404 "Cart is empty"), w).
Proof. apply create_order_empty. Qed.

Lemma create_order_without_items_witness :
  create_order no_faults order_u1 shop =
  (Raise (HTTPException 404 "Cart is empty"), shop).
Proof.
  apply (create_order_without_items no_faults order_u1 shop). reflexivity.
Defined.

(** C4 fails as stated: three days on, the cart of "u1" is past its
    [expires_at], and [create_order] converts it all the same. *)
Lemma create_order_converts_expired_cart :
  let w := at_time (1000 + 3 * 86400) shop_with_cart in
  Forall (fun c => c_expires_at c < now w) (cart (tables w)) /\
  exists w' o,
    create_order no_faults order_u1 w = (Return order_u1_response, w') /\
    orders (tables w) = [] /\ orders (tables w') = [o] /\
    o_id o = 1%nat.
Proof.
  cbv zeta. split.
  - vm_compute. repeat constructor.
  - do 2 eexists. vm_compute. repeat split.
Qed.

(** C8: the code breaks the claim.  The order of "u1" is stored with the
    decimal total 20.00 and the currency "USD", and [get_order] answers
    with both; the response of [create_order] and the message it sends
    carry the total as a float and name no currency. *)
Theorem create_order_total_is_float :
  create_order no_faults order_u1 shop_with_cart =
  (Return order_u1_response, shop_with_order) /\
  py_get "total" order_u1_response = Some (PyFloat 2000) /\
  py_get "currency" order_u1_response = None /\
  map (fun m => (dict_get "total" (MessageBody m),
                 dict_get "currency" (MessageBody m))) (sqs shop_with_order) =
  [(Some (PyFloat 2000), None)] /\
  map (fun o => (o_total o, o_currency o)) (orders (tables shop_with_order)) =
  [(2000, "USD")] /\
  exists resp,
    get_order 1 shop_with_order = (Return resp, shop_with_order) /\
    total resp = 2000 /\ currency resp = "USD".
Proof.
  repeat split; try (vm_compute; reflexivity).
  eexists. vm_compute. repeat split.
Qed.

(** ** One cart, several requests *)

Lemma filter_filter_negb {A} (f : A -> bool) (l : list A) :
  List.filter f (List.filter (fun x => negb (f x)) l) = [].
Proof.
  induction l as [|x l IH]; [reflexivity|]. cbn.
  destruct (f x) eqn:Hx; cbn; [exact IH | now rewrite Hx].
Qed.

(** A converted cart has no items and no row left. *)
Lemma converted_cart_gone req (its : list CartItemRow) (w : World) :
  cart_items_of (cart_id req) (tables (converted req its w)) = [] /\
  List.filter (fun r => Nat.eqb (c_id r) (cart_id req))
    (cart (tables (converted req its w))) = [].
Proof.
  split; cbn; unfold cart_items_of; cbn;
    apply (filter_filter_negb (fun r => Nat.eqb _ (cart_id req))).
Qed.

(** A task that runs alone does what the handler does. *)
Lemma task_alone flt req (w : World) :
  run_schedule flt [0%nat; 0%nat] [Start req] w =
  let (r, w') := create_order flt req w in ([Done r], w').
Proof.
  rewrite create_order_run. unfold except_Exception.
  cbn [run_schedule lookup list_lookup task_step]. mrun.
  destruct (flt AtSelect); [reflexivity|].
  unfold select_cart_items. cbn. unfold except_Exception.
  now destruct (transaction _ _ _) as [[?|[]] ?].
Qed.




(** ** The cache *)

(** C5, as the code has it: after [create_order] has committed, [get_cart]
    on the same cart fails with 404 "Cart not found" when the cache holds
    no live entry for the cart; while an entry written before the
    conversion is still live, [get_cart] answers with that entry. *)
Theorem get_cart_after_create_order flt req (w w1 : World) r (t : Z) :
  create_order flt req w = (Return r, w1) ->
  get_cart (cart_id req) (at_time t w1) =
  (match redis w !! ("cart:" +:+ str (cart_id req)) with
   | Some (doc, expiry) =>
       if t <? expiry then Return doc
       else Raise (HTTPException 404 "Cart not found")
   | None => Raise (HTTPException 404 "Cart not found")
   end, at_time t w1).
Proof.
  intros (_ & _ & -> & _)%create_order_Return.
  unfold get_cart, except_Exception. mrun.
  unfold redis_get at 1. cbn [redis at_time now converted set_sqs
    set_order_id_seq set_tables].
  assert (Hmiss :
    get_cart_from_storage (cart_id req)
      (at_time t (converted req (cart_items_of (cart_id req) (tables w)) w)) =
    (Raise (HTTPException 404 "Cart not found"),
     at_time t (converted req (cart_items_of (cart_id req) (tables w)) w))).
  { unfold get_cart_from_storage. mrun. unfold read_tables.
    cbn [tables at_time].
    destruct (converted_cart_gone req (cart_items_of (cart_id req) (tables w)) w)
      as [_ ->]. reflexivity. }
  destruct (redis w !! _) as [[doc expiry]|]; [|now rewrite Hmiss].
  destruct (t <? expiry); [reflexivity | now rewrite Hmiss].
Qed.

Lemma get_cart_after_create_order_witness :
  get_cart (cart_id order_u1) (at_time 1100 shop_with_order) =
  (match redis shop_with_cart !! ("cart:" +:+ str (cart_id order_u1)) with
   | Some (doc, expiry) =>
       if 1100 <? expiry then Return doc
       else Raise (HTTPException 404 "Cart not found")
   | None => Raise (HTTPException 404 "Cart not found")
   end, at_time 1100 shop_with_order).
Proof.
  apply (get_cart_after_create_order no_faults order_u1 shop_with_cart
           shop_with_order order_u1_response 1100).
  vm_compute. reflexivity.
Defined.

(** C5 fails as stated: the cart of "u1" is read once, which caches it, and
    then converted; a [get_cart] one hundred seconds later still answers
    with the cart, although the cart row is gone. *)
Lemma get_cart_serves_converted_cart :
  let w1 := after (create_order no_faults order_u1) shop_cart_cached in
  exists doc,
    create_order no_faults order_u1 shop_cart_cached =
    (Return order_u1_response, w1) /\
    cart (tables w1) = [] /\
    get_cart 1 (at_time 1100 w1) = (Return doc, at_time 1100 w1) /\
    py_get "id" doc = Some (PyStr "1") /\
    py_get "user_id" doc = Some (PyStr "u1").
Proof. cbv zeta. eexists. vm_compute. repeat split. Qed.

(** ** Order status *)

Lemma update_orders_status_run st oid (w : World) :
  update_order_status oid st w =
  let w' := snd (update_orders_status st oid w) in
  if existsb (fun o => Nat.eqb (o_id o) oid) (orders (tables w))
  then (Return (PyDict [("message",
                         PyStr "Order status updated successfully")]), w')
  else (Raise (HTTPException 404 "Order not found"), w').
Proof.
  unfold update_order_status, except_Exception. mrun.
  unfold update_orders_status. cbn [snd].
  assert (Hcount : forall l : list OrderRow,
    Nat.eqb (length (List.filter (fun o => Nat.eqb (o_id o) oid) l)) 0 =
    negb (existsb (fun o => Nat.eqb (o_id o) oid) l)).
  { induction l as [|o l IH]; [reflexivity|]. cbn.
    destruct (Nat.eqb (o_id o) oid); [reflexivity | exact IH]. }
  rewrite Hcount.
  now destruct (existsb _ _).
Qed.


Lemma lookup_map {A B} (f : A -> B) (l : list A) (i : nat) :
  map f l !! i = f <$> l !! i.
Proof.
  revert i. induction l as [|x l IH]; intros [|i]; cbn; auto.
Qed.



(** C10: a successful [update_order_status] changes only [status] and
    [updated_at], and only on rows with the given identifier: the orders
    table keeps its length and, row by row, the identifier, owner, total,
    currency and creation time; a row with another identifier is the same
    row; order items, carts, cart items, products, cache and queue are as
    before. *)
Theorem update_order_status_frame oid st (w w' : World) r :
  update_order_status oid st w = (Return r, w') ->
  length (orders (tables w')) = length (orders (tables w)) /\
  (forall i o, orders (tables w) !! i = Some o ->
     exists o', orders (tables w') !! i = Some o' /\
                o_id o' = o_id o /\ o_user_id o' = o_user_id o /\
                o_total o' = o_total o /\ o_currency o' = o_currency o /\
                o_created_at o' = o_created_at o /\
                (o_id o <> oid -> o' = o)) /\
  order_items (tables w') = order_items (tables w) /\
  cart (tables w') = cart (tables w) /\
  cart_items (tables w') = cart_items (tables w) /\
  products (tables w') = products (tables w) /\
  redis w' = redis w /\ sqs w' = sqs w.
Proof.
  rewrite update_orders_status_run. cbv zeta.
  destruct (existsb _ _); [|discriminate].
  intros [= _ <-]. cbn.
  split; [apply length_map|]. split; [|repeat split].
  intros i o Hi. rewrite lookup_map, Hi. cbn.
  destruct (Nat.eqb (o_id o) oid) eqn:Hhit.
  - eexists. split; [reflexivity|]. cbn. repeat split.
    intros Hne. now apply Nat.eqb_eq in Hhit.
  - eexists. split; [reflexivity|]. repeat split.
Qed.

Lemma update_order_status_frame_witness :
  length (orders (tables shop_completed)) =
  length (orders (tables shop_with_order)) /\
  (forall i o, orders (tables shop_with_order) !! i = Some o ->
     exists o', orders (tables shop_completed) !! i = Some o' /\
                o_id o' = o_id o /\ o_user_id o' = o_user_id o /\
                o_total o' = o_total o /\ o_currency o' = o_currency o /\
                o_created_at o' = o_created_at o /\
                (o_id o <> 1%nat -> o' = o)) /\
  order_items (tables shop_completed) = order_items (tables shop_with_order) /\
  cart (tables shop_completed) = cart (tables shop_with_order) /\
  cart_items (tables shop_completed) = cart_items (tables shop_with_order) /\
  products (tables shop_completed) = products (tables shop_with_order) /\
  redis shop_completed = redis shop_with_order /\
  sqs shop_completed = sqs shop_with_order.
Proof.
  apply (update_order_status_frame 1 "completed" shop_with_order shop_completed
           (PyDict [("message", PyStr "Order status updated successfully")])).
  vm_compute. reflexivity.
Defined.

(** * Further properties of the handlers *)

(** ** What one request can do to the store *)

Lemma filter_eqb_head {A} (key : A -> nat) (k : nat) (l : list A) x l' :
  List.filter (fun r => Nat.eqb (key r) k) l = x :: l' -> key x = k.
Proof.
  intros H. assert (Hin : In x (List.filter (fun r => Nat.eqb (key r) k) l))
    by (rewrite H; now left).
  apply filter_In in Hin as [_ Hx]. now apply Nat.eqb_eq.
Qed.

Lemma get_cart_from_storage_run cid (w : World) :
  get_cart_from_storage cid w =
  match List.filter (fun r => Nat.eqb (c_id r) cid) (cart (tables w)) with
  | [] => (Raise (HTTPException 404 "Cart not found"), w)
  | c :: _ =>
      (Return (cart_document c (tables w)),
       set_redis (<["cart:" +:+ str cid :=
                    (json_default_str (cart_document c (tables w)),
                     now w + 300)]> (redis w)) w)
  end.
Proof.
  unfold get_cart_from_storage. rewrite bind_run. unfold read_tables at 1.
  destruct (List.filter _ _) as [|c l] eqn:Hf; [reflexivity|].
  apply filter_eqb_head in Hf. unfold cart_document. rewrite Hf.
  reflexivity.
Qed.

Lemma get_cart_run cid (w : World) :
  get_cart cid w =
  match redis w !! ("cart:" +:+ str cid) with
  | Some (doc, expiry) =>
      if now w <? expiry then (Return doc, w)
      else get_cart_from_storage cid w
  | None => get_cart_from_storage cid w
  end.
Proof.
  assert (Hst : except_Exception "Failed to fetch cart"
                  (get_cart_from_storage cid) w = get_cart_from_storage cid w).
  { unfold except_Exception. rewrite get_cart_from_storage_run.
    now destruct (List.filter _ _). }
  rewrite <- Hst.
  unfold get_cart, except_Exception. rewrite bind_run. unfold redis_get at 1.
  destruct (redis w !! _) as [[doc e]|]; [destruct (now w <? e)|];
    reflexivity.
Qed.

Lemma get_cart_cases cid (w : World) :
  (exists doc, get_cart cid w = (Return doc, w)) \/
  get_cart cid w = (Raise (HTTPException 404 "Cart not found"), w) \/
  (exists doc v, get_cart cid w =
                 (Return doc,
                  set_redis (<["cart:" +:+ str cid := (v, now w + 300)]> (redis w))
                    w)).
Proof.
  rewrite get_cart_run, get_cart_from_storage_run.
  destruct (redis w !! _) as [[doc e]|]; [destruct (now w <? e)|];
    try (left; eexists; reflexivity);
    (destruct (List.filter _ _) as [|c l];
     [right; left; reflexivity | right; right; do 2 eexists; reflexivity]).
Qed.

Lemma get_order_world oid (w : World) : snd (get_order oid w) = w.
Proof.
  unfold get_order. rewrite snd_except_Exception, bind_run.
  unfold read_tables at 1. now destruct (List.filter _ _).
Qed.

Lemma update_order_status_world oid st (w : World) :
  snd (update_order_status oid st w) =
  set_tables (set_orders
                (map (fun o => if Nat.eqb (o_id o) oid
                               then set_status st (now w) o else o)
                   (orders (tables w))) (tables w)) w.
Proof.
  rewrite update_orders_status_run. cbv zeta. now destruct (existsb _ _).
Qed.

Lemma serve_cases rq (w : World) :
  (tables (serve rq w) = tables w /\ cart_id_seq (serve rq w) = cart_id_seq w)
  \/ (exists req its, Forall (fun item => 0 < quantity item) its /\
                      serve rq w = cart_written req its w)
  \/ (exists req, cart_items_of (cart_id req) (tables w) <> [] /\
                  0 <= cart_total (cart_items_of (cart_id req) (tables w)) /\
                  serve rq w =
                  converted req (cart_items_of (cart_id req) (tables w)) w)
  \/ (exists oid st,
        serve rq w =
        set_tables (set_orders
                      (map (fun o => if Nat.eqb (o_id o) oid
                                     then set_status st (now w) o else o)
                         (orders (tables w))) (tables w)) w).
Proof.
  destruct rq as [flt r|c|f r|o|o st|t]; cbn [serve].
  - destruct (create_cart_cases flt r w) as [->|(its & Hits & ->)];
      [now left|]. right. left. now exists r, its.
  - left. destruct (get_cart_cases c w) as [[doc ->]|[->|(doc & v & ->)]];
      now cbn.
  - destruct (create_order f r w) as [[resp|e] w'] eqn:Hrun; cbn [snd].
    + apply create_order_Return in Hrun as (Hne & _ & -> & Hpos).
      right. right. left. exists r. repeat split; assumption.
    + apply create_order_Raise in Hrun as (Ht & (Hs & _) & _). now left.
  - left. now rewrite get_order_world.
  - right. right. right. exists o, st. apply update_order_status_world.
  - left. now cbn.
Qed.

Lemma Forall_filter_keep {A} (P : A -> Prop) (f : A -> bool) (l : list A) :
  Forall P l -> Forall P (List.filter f l).
Proof.
  induction 1 as [|x l Hx _ IH]; [constructor|]. cbn.
  destruct (f x); [constructor|]; assumption.
Qed.

Lemma serve_carts_fresh rq (w : World) :
  carts_fresh w -> carts_fresh (serve rq w).
Proof.
  intros [Hc Hi]. unfold carts_fresh.
  destruct (serve_cases rq w)
    as [[-> ->]|[(req & its & _ & ->)|[(req & _ & _ & ->)|(oid & st & ->)]]];
    cbn; try (split; assumption).
  - split; apply Forall_app; split.
    + eapply List.Forall_impl; [|exact Hc]. cbn. intros; lia.
    + constructor; [cbn; lia | constructor].
    + eapply List.Forall_impl; [|exact Hi]. cbn. intros; lia.
    + apply List.Forall_map, Forall_forall. intros x _. cbn. lia.
  - split; now apply Forall_filter_keep.
Qed.

Lemma serve_quantities_positive rq (w : World) :
  quantities_positive w -> quantities_positive (serve rq w).
Proof.
  intros [Hi Ho]. unfold quantities_positive.
  destruct (serve_cases rq w)
    as [[-> _]|[(req & its & Hv & ->)|[(req & _ & _ & ->)|(oid & st & ->)]]];
    cbn; try (split; assumption).
  - split; [|exact Ho]. apply Forall_app. split; [exact Hi|].
    apply List.Forall_map. exact Hv.
  - split; [now apply Forall_filter_keep|].
    apply Forall_app. split; [exact Ho|].
    apply List.Forall_map. cbn. now apply Forall_filter_keep.
Qed.

Lemma serve_totals_nonnegative rq (w : World) :
  totals_nonnegative w -> totals_nonnegative (serve rq w).
Proof.
  intros Ho. unfold totals_nonnegative.
  destruct (serve_cases rq w)
    as [[-> _]|[(req & its & _ & ->)|[(req & _ & Hpos & ->)|(oid & st & ->)]]];
    cbn; try assumption.
  - apply Forall_app. split; [exact Ho|]. repeat constructor. exact Hpos.
  - apply List.Forall_map. eapply List.Forall_impl; [|exact Ho].
    cbn. intros o. now destruct (Nat.eqb (o_id o) oid).
Qed.

(** ** Invariants along any sequence of requests *)

(** X1: whatever requests are served, every cart item and every order item
    in storage keeps a positive quantity: [create_cart] lets in validated
    items only and [create_order] copies them. *)
Theorem serve_all_quantities_positive rqs (w : World) :
  quantities_positive w -> quantities_positive (serve_all rqs w).
Proof.
  revert w. induction rqs as [|rq rqs IH]; intros w Hw; [exact Hw|].
  cbn. apply IH, serve_quantities_positive, Hw.
Qed.

Lemma serve_all_quantities_positive_witness :
  quantities_positive (serve_all busy_day shop).
Proof.
  apply (serve_all_quantities_positive busy_day shop). split; constructor.
Defined.

(** X2: whatever requests are served, no stored order has a negative
    total: a conversion whose total is negative is rolled back when the
    order-value counter refuses the amount, and a status update leaves the
    total alone. *)
Theorem serve_all_totals_nonnegative rqs (w : World) :
  totals_nonnegative w -> totals_nonnegative (serve_all rqs w).
Proof.
  revert w. induction rqs as [|rq rqs IH]; intros w Hw; [exact Hw|].
  cbn. apply IH, serve_totals_nonnegative, Hw.
Qed.

Lemma serve_all_totals_nonnegative_witness :
  totals_nonnegative (serve_all busy_day shop).
Proof.
  apply (serve_all_totals_nonnegative busy_day shop). constructor.
Defined.

Lemma serve_all_carts_fresh rqs (w : World) :
  carts_fresh w -> carts_fresh (serve_all rqs w).
Proof.
  revert w. induction rqs as [|rq rqs IH]; intros w Hw; [exact Hw|].
  cbn. apply IH, serve_carts_fresh, Hw.
Qed.

Lemma carts_fresh_shop : carts_fresh shop.
Proof. split; constructor. Qed.

(** ** Creating a cart, then reading or converting it *)

(** X3: a cart request in which some item has a quantity of zero or less
    is refused before anything is written: the world is unchanged, and no
    cart identifier is used up. *)
Theorem create_cart_rejects_nonpositive flt req (w : World) :
  Exists (fun item => quantity item <= 0) (items req) ->
  exists e, create_cart flt req w = (Raise e, w).
Proof.
  intros Hex. eexists. apply create_cart_invalid.
  unfold valid_cart_request. intros Hall.
  apply Exists_exists in Hex as (x & Hx & Hq).
  rewrite Forall_forall in Hall. specialize (Hall x Hx). lia.
Qed.

Lemma create_cart_rejects_nonpositive_witness :
  exists e,
    create_cart no_faults
      {| cart_request_user_id := "u1";
         items := [{| product_id := "p1"; quantity := 0;
                      price := 1000 |}] |} shop = (Raise e, shop).
Proof.
  apply (create_cart_rejects_nonpositive no_faults
           {| cart_request_user_id := "u1";
              items := [{| product_id := "p1"; quantity := 0;
                           price := 1000 |}] |} shop).
  constructor. cbn. lia.
Defined.

Lemma create_cart_Return flt req (w w1 : World) r :
  create_cart flt req w = (Return r, w1) ->
  valid_cart_request req /\ w1 = cart_created req w /\
  r = PyDict [("cart_id", PyStr (str (cart_id_seq w)));
              ("message", PyStr "Cart created successfully")].
Proof.
  destruct (decide (Forall (fun item => 0 < quantity item) (items req)))
    as [Hv|Hv].
  - rewrite create_cart_run by exact Hv.
    destruct (flt AtInsertCart); [discriminate|].
    destruct (snd (stored_items flt 0 (items req))) eqn:Hall; [|discriminate].
    rewrite (stored_items_all _ _ _ Hall). now intros [= <- <-].
  - now rewrite create_cart_invalid.
Qed.

Lemma filter_fresh_app {A} (key : A -> nat) (k : nat) (old new : list A) :
  Forall (fun x => (key x < k)%nat) old ->
  Forall (fun x => key x = k) new ->
  List.filter (fun x => Nat.eqb (key x) k) (old ++ new) = new /\
  List.filter (fun x => negb (Nat.eqb (key x) k)) (old ++ new) = old.
Proof.
  intros Hold Hnew. rewrite !List.filter_app. split.
  - rewrite filter_all_false, filter_all_true; [reflexivity| |].
    + eapply List.Forall_impl; [|exact Hnew]. cbn. intros x ->.
      apply Nat.eqb_refl.
    + eapply List.Forall_impl; [|exact Hold]. cbn. intros x Hx.
      apply Nat.eqb_neq. lia.
  - rewrite filter_all_true, filter_all_false; [apply app_nil_r| |].
    + eapply List.Forall_impl; [|exact Hnew]. cbn. intros x ->.
      now rewrite Nat.eqb_refl.
    + eapply List.Forall_impl; [|exact Hold]. cbn. intros x Hx.
      apply negb_true_iff, Nat.eqb_neq. lia.
Qed.

Lemma cart_written_rows req (its : list CartItem) (w : World) :
  carts_fresh w ->
  List.filter (fun r => Nat.eqb (c_id r) (cart_id_seq w))
    (cart (tables (cart_written req its w))) = [new_cart req w] /\
  cart_items_of (cart_id_seq w) (tables (cart_written req its w)) =
  map (cart_item_row (cart_id_seq w)) its /\
  List.filter (fun r => negb (Nat.eqb (c_id r) (cart_id_seq w)))
    (cart (tables (cart_written req its w))) = cart (tables w) /\
  List.filter (fun r => negb (Nat.eqb (ci_cart_id r) (cart_id_seq w)))
    (cart_items (tables (cart_written req its w))) = cart_items (tables w).
Proof.
  intros [Hc Hi]. unfold cart_items_of. cbn.
  destruct (filter_fresh_app c_id (cart_id_seq w) (cart (tables w))
              [new_cart req w] Hc) as [E1 E2]; [now repeat constructor|].
  destruct (filter_fresh_app ci_cart_id (cart_id_seq w) (cart_items (tables w))
              (map (cart_item_row (cart_id_seq w)) its) Hi)
    as [E3 E4].
  { apply List.Forall_map, Forall_forall. now intros x _. }
  now rewrite E1, E2, E3, E4.
Qed.

(** ** Joins *)

Lemma inner_join_one {A B} (pid : A -> string) (mk : A -> ProductRow -> B)
    (r : A) (ps : list ProductRow) :
  map (fun rp => mk (fst rp) (snd rp))
    (List.filter (fun rp => bool_decide (pid (fst rp) = p_id (snd rp)))
       (map (fun p => (r, p)) ps)) =
  map (mk r) (List.filter (fun p => String.eqb (pid r) (p_id p)) ps).
Proof.
  induction ps as [|p ps IH]; [reflexivity|]. cbn.
  destruct (String.eqb_spec (pid r) (p_id p)) as [E|E].
  - rewrite bool_decide_eq_true_2 by exact E. cbn. now rewrite IH.
  - rewrite bool_decide_eq_false_2 by exact E. exact IH.
Qed.

(** The join the handlers compute is the inner join on the product
    identifier. *)
Lemma join_products_inner_join {A B} (pid : A -> string)
    (mk : A -> ProductRow -> B) (rows : list A) (ps : list ProductRow) :
  join_products pid mk rows ps = inner_join pid mk rows ps.
Proof.
  unfold join_products, inner_join.
  induction rows as [|r rows IH]; [reflexivity|].
  cbn [flat_map list_prod]. rewrite List.filter_app, map_app, IH.
  f_equal. symmetry. apply inner_join_one.
Qed.

Lemma join_products_map {A A' B} (f : A' -> A) (pid : A -> string)
    (mk : A -> ProductRow -> B) (rows : list A') (ps : list ProductRow) :
  join_products pid mk (map f rows) ps =
  join_products (fun a => pid (f a)) (fun a => mk (f a)) rows ps.
Proof.
  unfold join_products. induction rows as [|r rows IH]; [reflexivity|].
  cbn. now rewrite IH.
Qed.

(** X4: a cart that [create_cart] has just created is read back by
    [get_cart], at any later time, with its identifier, its owner, its
    creation time and, in some order, one entry for every pair of an item
    of the request and a product row with the item's product identifier;
    an item whose product does not exist has no entry.  The cache holds
    no live entry under the key of the new cart, and the quantities fit
    the 32 bits that every integer column takes. *)
Theorem create_cart_then_get_cart flt req (w w1 : World) r (t : Z) :
  carts_fresh w ->
  Forall (fun item => quantity item < 2 ^ 31) (items req) ->
  cache_live ("cart:" +:+ str (cart_id_seq w)) (at_time t w) = false ->
  create_cart flt req w = (Return r, w1) ->
  exists entries w2,
    get_cart (cart_id_seq w) (at_time t w1) =
    (Return
       (PyDict [("id", PyStr (str (cart_id_seq w)));
                ("user_id", PyStr (cart_request_user_id req));
                ("items", PyList entries);
                ("created_at", PyStr (isoformat (now w)))]), w2) /\
    entries ≡ₚ
    inner_join product_id
      (fun item p =>
         PyDict [("cart_id", PyStr (str (cart_id_seq w)));
                 ("product_id", PyStr (product_id item));
                 ("quantity", PyInt (quantity item));
                 ("price", PyDecimal (price item));
                 ("name", PyStr (p_name p));
                 ("image_url", PyStr (p_image_url p))])
      (items req) (products (tables w)) /\
    py_get "cart_id" r = Some (PyStr (str (cart_id_seq w))) /\
    tables w2 = tables w1.
Proof.
  intros Hfresh _ Hlive (_ & -> & ->)%create_cart_Return.
  destruct (cart_written_rows req (items req) w Hfresh) as (Hrow & Hits & _).
  fold (cart_created req w) in Hrow, Hits.
  rewrite get_cart_run.
  assert (Hdoc : cart_document (new_cart req w) (tables (cart_created req w)) =
    PyDict [("id", PyStr (str (cart_id_seq w)));
            ("user_id", PyStr (cart_request_user_id req));
            ("items",
             PyList (inner_join product_id
               (fun item p =>
                  PyDict [("cart_id", PyStr (str (cart_id_seq w)));
                          ("product_id", PyStr (product_id item));
                          ("quantity", PyInt (quantity item));
                          ("price", PyDecimal (price item));
                          ("name", PyStr (p_name p));
                          ("image_url", PyStr (p_image_url p))])
               (items req) (products (tables w))));
            ("created_at", PyStr (isoformat (now w)))]).
  { unfold cart_document. cbn [new_cart c_id c_user_id c_created_at].
    rewrite Hits, join_products_map, join_products_inner_join. reflexivity. }
  assert (Hst :
    get_cart_from_storage (cart_id_seq w) (at_time t (cart_created req w)) =
    (Return (cart_document (new_cart req w) (tables (cart_created req w))),
     set_redis (<["cart:" +:+ str (cart_id_seq w) :=
                  (json_default_str
                     (cart_document (new_cart req w)
                        (tables (cart_created req w))), t + 300)]> (redis w))
       (at_time t (cart_created req w)))).
  { rewrite get_cart_from_storage_run. cbn [tables at_time].
    now rewrite Hrow. }
  rewrite Hdoc in Hst.
  unfold cache_live in Hlive. cbn [redis now at_time] in Hlive.
  cbn [redis now at_time cart_created cart_written set_cart_id_seq set_tables].
  destruct (redis w !! _) as [[doc e]|];
    [rewrite Hlive|]; rewrite Hst; do 2 eexists;
    (split; [reflexivity|]); (split; [reflexivity|]); split; reflexivity.
Qed.

Lemma create_cart_then_get_cart_witness :
  exists entries w2,
    get_cart (cart_id_seq shop) (at_time 2000 shop_two) =
    (Return
       (PyDict [("id", PyStr (str (cart_id_seq shop)));
                ("user_id", PyStr (cart_request_user_id cart_two));
                ("items", PyList entries);
                ("created_at", PyStr (isoformat (now shop)))]), w2) /\
    entries ≡ₚ
    inner_join product_id
      (fun item p =>
         PyDict [("cart_id", PyStr (str (cart_id_seq shop)));
                 ("product_id", PyStr (product_id item));
                 ("quantity", PyInt (quantity item));
                 ("price", PyDecimal (price item));
                 ("name", PyStr (p_name p));
                 ("image_url", PyStr (p_image_url p))])
      (items cart_two) (products (tables shop)) /\
    py_get "cart_id"
      (PyDict [("cart_id", PyStr "1");
               ("message", PyStr "Cart created successfully")])
    = Some (PyStr (str (cart_id_seq shop))) /\
    tables w2 = tables shop_two.
Proof.
  apply (create_cart_then_get_cart no_faults cart_two shop shop_two
           (PyDict [("cart_id", PyStr "1");
                    ("message", PyStr "Cart created successfully")]) 2000).
  - exact carts_fresh_shop.
  - repeat constructor.
  - reflexivity.
  - vm_compute. reflexivity.
Defined.

Lemma create_order_no_faults req (w : World) :
  cart_items_of (cart_id req) (tables w) <> [] ->
  0 <= cart_total (cart_items_of (cart_id req) (tables w)) ->
  create_order no_faults req w =
  (Return (order_response (cart_items_of (cart_id req) (tables w)) w),
   converted req (cart_items_of (cart_id req) (tables w)) w).
Proof.
  intros Hne Hpos. rewrite create_order_run. unfold except_Exception.
  cbn [no_faults]. rewrite convert_run by exact Hne. cbn [no_faults orb andb].
  rewrite andb_false_r.
  destruct (_ <? 0) eqn:Hneg; [lia | reflexivity].
Qed.

Lemma cart_lines_request cid (l : list CartItem) :
  cart_lines (map (cart_item_row cid) l) =
  map (fun item => quantity item * price item) l.
Proof. unfold cart_lines. now rewrite map_map. Qed.

(** X5: a cart that [create_cart] has just created, with at least one
    item and lines that fit the decimal context and add up to a total that
    is not negative, is converted by a fault-free [create_order], at any
    later time (expired or not) and for whatever user the order request
    names (the owner of the cart is not compared).  The new order carries
    the user of the order request, its total is the exact sum of quantity
    times price over the items of the cart request, the order items added
    are, in some order, those items, whether or not their products exist,
    and the cart tables hold what they held before the cart was created.
    The quantities fit the 32 bits that every integer column takes. *)
Theorem create_cart_then_create_order flt req oreq (w w1 : World) r (t : Z) :
  carts_fresh w ->
  Forall (fun item => quantity item < 2 ^ 31) (items req) ->
  create_cart flt req w = (Return r, w1) ->
  cart_id oreq = cart_id_seq w ->
  items req <> [] ->
  fits_context (map (fun item => quantity item * price item) (items req)) ->
  0 <= exact_sum (map (fun item => quantity item * price item) (items req)) ->
  exists resp w2 o,
    create_order no_faults oreq (at_time t w1) = (Return resp, w2) /\
    orders (tables w2) = orders (tables w) ++ [o] /\
    o_user_id o = user_id oreq /\
    o_total o =
    exact_sum (map (fun item => quantity item * price item) (items req)) /\
    order_items (tables w2) ≡ₚ
    order_items (tables w) ++
    map (fun item => {| oi_order_id := o_id o;
                        oi_product_id := product_id item;
                        oi_quantity := quantity item;
                        oi_price := price item |}) (items req) /\
    cart (tables w2) ≡ₚ cart (tables w) /\
    cart_items (tables w2) ≡ₚ cart_items (tables w).
Proof.
  intros Hfresh _ (_ & -> & _)%create_cart_Return Hcid Hne Hfit Hpos.
  destruct (cart_written_rows req (items req) w Hfresh) as (_ & Hits & Hc & Hci).
  fold (cart_created req w) in Hits, Hc, Hci.
  assert (Hits' : cart_items_of (cart_id oreq)
                    (tables (at_time t (cart_created req w))) =
                  map (cart_item_row (cart_id_seq w)) (items req)).
  { rewrite Hcid. exact Hits. }
  assert (Htot : cart_total (map (cart_item_row (cart_id_seq w)) (items req)) =
                 exact_sum (map (fun item => quantity item * price item)
                              (items req))).
  { rewrite cart_total_exact; rewrite cart_lines_request;
      [reflexivity | exact Hfit]. }
  rewrite create_order_no_faults; rewrite Hits'.
  - exists (order_response (map (cart_item_row (cart_id_seq w)) (items req))
              (at_time t (cart_created req w))),
      (converted oreq (map (cart_item_row (cart_id_seq w)) (items req))
         (at_time t (cart_created req w))),
      (new_order oreq (map (cart_item_row (cart_id_seq w)) (items req))
         (at_time t (cart_created req w))).
    split; [reflexivity|].
    cbn [converted set_sqs set_order_id_seq set_tables tables converted_tables
         orders order_items cart cart_items at_time cart_created cart_written
         set_cart_id_seq new_order o_user_id o_total o_id order_id_seq].
    rewrite Hcid, Htot, map_map.
    cbn [cart_created cart_written tables set_cart_id_seq set_tables cart
         cart_items] in Hc, Hci.
    split; [reflexivity|]. split; [reflexivity|]. split; [reflexivity|].
    split; [reflexivity|]. now rewrite Hc, Hci.
  - destruct (items req); [done | discriminate].
  - now rewrite Htot.
Qed.

Lemma create_cart_then_create_order_witness :
  exists resp w2 o,
    create_order no_faults (order_for "u2" 1) (at_time 500000 shop_two) =
    (Return resp, w2) /\
    orders (tables w2) = orders (tables shop) ++ [o] /\
    o_user_id o = user_id (order_for "u2" 1) /\
    o_total o =
    exact_sum (map (fun item => quantity item * price item) (items cart_two))
    /\
    order_items (tables w2) ≡ₚ
    order_items (tables shop) ++
    map (fun item => {| oi_order_id := o_id o;
                        oi_product_id := product_id item;
                        oi_quantity := quantity item;
                        oi_price := price item |}) (items cart_two) /\
    cart (tables w2) ≡ₚ cart (tables shop) /\
    cart_items (tables w2) ≡ₚ cart_items (tables shop).
Proof.
  apply (create_cart_then_create_order no_faults cart_two (order_for "u2" 1)
           shop shop_two
           (PyDict [("cart_id", PyStr "1");
                    ("message", PyStr "Cart created successfully")]) 500000).
  - exact carts_fresh_shop.
  - repeat constructor.
  - vm_compute. reflexivity.
  - reflexivity.
  - discriminate.
  - vm_compute. reflexivity.
  - vm_compute. discriminate.
Defined.

(** X17: [create_cart] runs outside any transaction.  When the request is
    valid and its first items fit 32 bits but the next one exceeds 64, the
    call fails (without any injected failure) with 500 "Failed to create
    cart", and the cart row and the items before the one that failed stay
    in the tables. *)
Theorem create_cart_partial_failure req pre x post (w : World) :
  valid_cart_request req ->
  items req = pre ++ x :: post ->
  Forall (fun item => quantity item < 2 ^ 31) pre ->
  2 ^ 63 <= quantity x ->
  exists w1,
    create_cart no_faults req w =
    (Raise (HTTPException 500 "Failed to create cart"), w1) /\
    cart (tables w1) =
    cart (tables w) ++
    [{| c_id := cart_id_seq w; c_user_id := cart_request_user_id req;
        c_created_at := now w; c_expires_at := now w + 86400 |}] /\
    cart_items (tables w1) =
    cart_items (tables w) ++
    map (fun item => {| ci_cart_id := cart_id_seq w;
                        ci_product_id := product_id item;
                        ci_quantity := quantity item;
                        ci_price := price item |}) pre /\
    cart_id_seq w1 = S (cart_id_seq w).
Proof.
  intros Hv Hitems Hpre Hx. rewrite create_cart_run by exact Hv.
  cbn [no_faults]. rewrite Hitems.
  assert (Hst : forall k, stored_items no_faults k (pre ++ x :: post) =
                          (pre, false)).
  { clear Hitems. induction Hpre as [|y pre Hy _ IH]; intros k; cbn.
    - destruct (2 ^ 63 <=? quantity x) eqn:E; [reflexivity | lia].
    - destruct (2 ^ 63 <=? quantity y) eqn:E; [lia|]. now rewrite IH. }
  rewrite Hst. cbn [fst snd]. eexists. split; [reflexivity|].
  cbn. repeat split.
Qed.

Lemma create_cart_partial_failure_witness :
  exists w1,
    create_cart no_faults
      {| cart_request_user_id := "u1";
         items := [{| product_id := "p1"; quantity := 2; price := 1000 |};
                   {| product_id := "p1"; quantity := 2 ^ 63; price := 1 |};
                   {| product_id := "p1"; quantity := 1; price := 1 |}] |}
      shop =
    (Raise (HTTPException 500 "Failed to create cart"), w1) /\
    cart (tables w1) =
    cart (tables shop) ++
    [{| c_id := cart_id_seq shop; c_user_id := "u1";
        c_created_at := now shop; c_expires_at := now shop + 86400 |}] /\
    cart_items (tables w1) =
    cart_items (tables shop) ++
    map (fun item => {| ci_cart_id := cart_id_seq shop;
                        ci_product_id := product_id item;
                        ci_quantity := quantity item;
                        ci_price := price item |})
      [{| product_id := "p1"; quantity := 2; price := 1000 |}] /\
    cart_id_seq w1 = S (cart_id_seq shop).
Proof.
  apply (create_cart_partial_failure
           {| cart_request_user_id := "u1";
              items := [{| product_id := "p1"; quantity := 2; price := 1000 |};
                        {| product_id := "p1"; quantity := 2 ^ 63; price := 1 |};
                        {| product_id := "p1"; quantity := 1; price := 1 |}] |}
           [{| product_id := "p1"; quantity := 2; price := 1000 |}]
           {| product_id := "p1"; quantity := 2 ^ 63; price := 1 |}
           [{| product_id := "p1"; quantity := 1; price := 1 |}] shop).
  - repeat constructor.
  - reflexivity.
  - repeat constructor.
  - cbn. lia.
Defined.

(** ** Reading a cart through the cache *)




(** ** Reading an order *)

Lemma get_order_run oid (w : World) :
  get_order oid w =
  match List.filter (fun o => Nat.eqb (o_id o) oid) (orders (tables w)) with
  | [] => (Raise (HTTPException 404 "Order not found"), w)
  | order :: _ =>
      (Return {| response_id := str (o_id order);
                 response_user_id := o_user_id order;
                 status := o_status order;
                 total := o_total order;
                 currency := o_currency order;
                 created_at := o_created_at order;
                 response_items :=
                   join_products oi_product_id order_item_dict
                     (order_items_of oid (tables w)) (products (tables w)) |},
       w)
  end.
Proof.
  unfold get_order, except_Exception. rewrite bind_run.
  unfold read_tables at 1. now destruct (List.filter _ _).
Qed.


(** X9: the order [create_order] has just created is read back by
    [get_order], at any later time, under the identifier the response
    gave, as a pending order in "USD" with the request's user, the
    creation time of the request and the decimal total whose float the
    response carried; its items are, in some order, one entry for every
    pair of a cart item and a product row with the item's product
    identifier, with the quantity and the price of the cart item. *)
Theorem create_order_then_get_order flt req (w w1 : World) r (t : Z) :
  ids_fresh w ->
  create_order flt req w = (Return r, w1) ->
  exists resp,
    get_order (order_id_seq w) (at_time t w1) = (Return resp, at_time t w1) /\
    py_get "order_id" r = Some (PyStr (response_id resp)) /\
    py_get "total" r = Some (PyFloat (total resp)) /\
    status resp = "pending" /\ currency resp = "USD" /\
    response_user_id resp = user_id req /\
    created_at resp = now w /\
    response_items resp ≡ₚ
    inner_join ci_product_id
      (fun ci p =>
         [("order_id", PyStr (response_id resp));
          ("product_id", PyStr (ci_product_id ci));
          ("quantity", PyInt (ci_quantity ci));
          ("price", PyDecimal (ci_price ci));
          ("name", PyStr (p_name p));
          ("image_url", PyStr (p_image_url p))])
      (cart_items_of (cart_id req) (tables w)) (products (tables w)).
Proof.
  intros Hfresh (_ & -> & -> & _)%create_order_Return.
  rewrite get_order_run.
  cbn [tables at_time converted set_sqs set_order_id_seq set_tables].
  rewrite order_items_of_converted by exact Hfresh.
  cbn [orders converted_tables products].
  destruct (filter_fresh_app o_id (order_id_seq w) (orders (tables w))
              [new_order req (cart_items_of (cart_id req) (tables w)) w])
    as [-> _]; [exact (proj1 Hfresh) | now repeat constructor |].
  eexists. split; [reflexivity|].
  cbn [response_id status currency response_user_id total created_at
       response_items new_order o_id o_status o_currency o_user_id o_total
       o_created_at order_response py_get dict_get String.eqb Ascii.eqb
       Bool.eqb].
  rewrite join_products_map, join_products_inner_join.
  repeat (split; [reflexivity|]). reflexivity.
Qed.

Lemma create_order_then_get_order_witness :
  exists resp,
    get_order (order_id_seq shop_two) (at_time 7000 shop_two_order) =
    (Return resp, at_time 7000 shop_two_order) /\
    py_get "order_id"
      (PyDict [("order_id", PyStr "1"); ("status", PyStr "pending");
               ("total", PyFloat 2750);
               ("message", PyStr "Order created successfully")])
    = Some (PyStr (response_id resp)) /\
    py_get "total"
      (PyDict [("order_id", PyStr "1"); ("status", PyStr "pending");
               ("total", PyFloat 2750);
               ("message", PyStr "Order created successfully")])
    = Some (PyFloat (total resp)) /\
    status resp = "pending" /\ currency resp = "USD" /\
    response_user_id resp = user_id order_u1 /\
    created_at resp = now shop_two /\
    response_items resp ≡ₚ
    inner_join ci_product_id
      (fun ci p =>
         [("order_id", PyStr (response_id resp));
          ("product_id", PyStr (ci_product_id ci));
          ("quantity", PyInt (ci_quantity ci));
          ("price", PyDecimal (ci_price ci));
          ("name", PyStr (p_name p));
          ("image_url", PyStr (p_image_url p))])
      (cart_items_of (cart_id order_u1) (tables shop_two))
      (products (tables shop_two)).
Proof.
  apply (create_order_then_get_order no_faults order_u1 shop_two
           shop_two_order).
  - split; vm_compute; constructor.
  - vm_compute. reflexivity.
Defined.

Lemma filter_map_set_status oid st t (l : list OrderRow) :
  List.filter (fun o => Nat.eqb (o_id o) oid)
    (map (fun o => if Nat.eqb (o_id o) oid then set_status st t o else o) l) =
  map (set_status st t) (List.filter (fun o => Nat.eqb (o_id o) oid) l).
Proof.
  induction l as [|o l IH]; [reflexivity|]. cbn.
  destruct (Nat.eqb (o_id o) oid) eqn:Ho; cbn; rewrite Ho, IH; reflexivity.
Qed.

(** X10: after a successful [update_order_status], [get_order] on the same
    identifier answers with the new status, and with the identifier, user,
    total, currency, creation time and items it answered with before. *)
Theorem update_order_status_then_get_order oid st (w w1 : World) r :
  update_order_status oid st w = (Return r, w1) ->
  exists before after_,
    get_order oid w = (Return before, w) /\
    get_order oid w1 = (Return after_, w1) /\
    status after_ = st /\
    response_id after_ = response_id before /\
    response_user_id after_ = response_user_id before /\
    total after_ = total before /\ currency after_ = currency before /\
    created_at after_ = created_at before /\
    response_items after_ = response_items before.
Proof.
  intros Hup.
  assert (Hw1 : w1 = snd (update_order_status oid st w)) by now rewrite Hup.
  rewrite update_order_status_world in Hw1. subst w1.
  rewrite update_orders_status_run in Hup. cbv zeta in Hup.
  destruct (existsb _ _) eqn:Hex; [|discriminate]. clear Hup.
  rewrite !get_order_run. cbn [tables set_tables orders set_orders products].
  rewrite filter_map_set_status.
  unfold order_items_of. cbn [order_items set_orders].
  destruct (List.filter (fun o => Nat.eqb (o_id o) oid) (orders (tables w)))
    as [|o l] eqn:Hf.
  - exfalso. apply existsb_exists in Hex as (o & Hin & Ho).
    assert (Hin' : In o (List.filter (fun o => Nat.eqb (o_id o) oid)
                           (orders (tables w))))
      by (apply filter_In; split; assumption).
    now rewrite Hf in Hin'.
  - do 2 eexists. cbn. repeat split.
Qed.

Lemma update_order_status_then_get_order_witness :
  exists before after_,
    get_order 1 shop_with_order = (Return before, shop_with_order) /\
    get_order 1 shop_completed = (Return after_, shop_completed) /\
    status after_ = "completed" /\
    response_id after_ = response_id before /\
    response_user_id after_ = response_user_id before /\
    total after_ = total before /\ currency after_ = currency before /\
    created_at after_ = created_at before /\
    response_items after_ = response_items before.
Proof.
  apply (update_order_status_then_get_order 1 "completed" shop_with_order
           shop_completed
           (PyDict [("message", PyStr "Order status updated successfully")])).
  vm_compute. reflexivity.
Defined.

(** ** What a conversion leaves alone *)

Lemma filter_other_key {A} (key : A -> nat) (k k' : nat) (l : list A) :
  k' <> k ->
  List.filter (fun x => Nat.eqb (key x) k')
    (List.filter (fun x => negb (Nat.eqb (key x) k)) l) =
  List.filter (fun x => Nat.eqb (key x) k') l.
Proof.
  intros Hne. induction l as [|x l IH]; [reflexivity|]. cbn.
  destruct (Nat.eqb (key x) k) eqn:Hk; cbn.
  - apply Nat.eqb_eq in Hk. rewrite Hk.
    destruct (Nat.eqb k k') eqn:Hk'; [|exact IH].
    apply Nat.eqb_eq in Hk'. congruence.
  - now rewrite IH.
Qed.

(** X11: a successful [create_order] touches no other cart: the rows and
    the items of every cart with another identifier are as before, as are
    the products, the cache and the cart sequence; the orders and order
    items that were there stay in place, unchanged; and nothing is left of
    the converted cart. *)
Theorem create_order_frame flt req (w w1 : World) r :
  create_order flt req w = (Return r, w1) ->
  (forall cid, cid <> cart_id req ->
     cart_items_of cid (tables w1) = cart_items_of cid (tables w) /\
     List.filter (fun c => Nat.eqb (c_id c) cid) (cart (tables w1)) =
     List.filter (fun c => Nat.eqb (c_id c) cid) (cart (tables w))) /\
  cart_items_of (cart_id req) (tables w1) = [] /\
  List.filter (fun c => Nat.eqb (c_id c) (cart_id req)) (cart (tables w1)) = []
  /\
  (forall i o, orders (tables w) !! i = Some o ->
               orders (tables w1) !! i = Some o) /\
  (forall i oi, order_items (tables w) !! i = Some oi ->
                order_items (tables w1) !! i = Some oi) /\
  products (tables w1) = products (tables w) /\
  redis w1 = redis w /\ cart_id_seq w1 = cart_id_seq w.
Proof.
  intros (_ & _ & -> & _)%create_order_Return.
  split; [|split; [apply converted_cart_gone|split;
                   [apply converted_cart_gone|]]].
  - intros cid Hne. unfold cart_items_of. cbn. split.
    + apply (filter_other_key ci_cart_id (cart_id req) cid _ Hne).
    + apply (filter_other_key c_id (cart_id req) cid _ Hne).
  - cbn. repeat split; intros i x Hi; now apply lookup_app_l_Some.
Qed.

Lemma create_order_frame_witness :
  (forall cid, cid <> cart_id order_u1 ->
     cart_items_of cid (tables shop_with_order) =
     cart_items_of cid (tables shop_with_cart) /\
     List.filter (fun c => Nat.eqb (c_id c) cid) (cart (tables shop_with_order))
     = List.filter (fun c => Nat.eqb (c_id c) cid)
         (cart (tables shop_with_cart))) /\
  cart_items_of (cart_id order_u1) (tables shop_with_order) = [] /\
  List.filter (fun c => Nat.eqb (c_id c) (cart_id order_u1))
    (cart (tables shop_with_order)) = [] /\
  (forall i o, orders (tables shop_with_cart) !! i = Some o ->
               orders (tables shop_with_order) !! i = Some o) /\
  (forall i oi, order_items (tables shop_with_cart) !! i = Some oi ->
                order_items (tables shop_with_order) !! i = Some oi) /\
  products (tables shop_with_order) = products (tables shop_with_cart) /\
  redis shop_with_order = redis shop_with_cart /\
  cart_id_seq shop_with_order = cart_id_seq shop_with_cart.
Proof.
  apply (create_order_frame no_faults order_u1 shop_with_cart shop_with_order
           order_u1_response).
  vm_compute. reflexivity.
Defined.

(** X12: a [create_order] that failed although the cart had items whose
    lines fit the decimal context and add up to a total that is not
    negative can be retried: the cart and its items are still there, and a
    fault-free retry converts them, adding one order with that exact total
    to the orders that were there before the failed attempt, and for it,
    in some order, the copies of the cart items. *)
Theorem create_order_retry flt req (w w1 : World) e :
  create_order flt req w = (Raise e, w1) ->
  cart_items_of (cart_id req) (tables w) <> [] ->
  fits_context (cart_lines (cart_items_of (cart_id req) (tables w))) ->
  0 <= exact_sum (cart_lines (cart_items_of (cart_id req) (tables w))) ->
  exists r w2 o,
    create_order no_faults req w1 = (Return r, w2) /\
    orders (tables w2) = orders (tables w) ++ [o] /\
    o_total o =
    exact_sum (cart_lines (cart_items_of (cart_id req) (tables w))) /\
    order_items_of (o_id o) (tables w2) ≡ₚ
    order_items_of (o_id o) (tables w) ++
    map (fun ci => {| oi_order_id := o_id o;
                      oi_product_id := ci_product_id ci;
                      oi_quantity := ci_quantity ci;
                      oi_price := ci_price ci |})
      (cart_items_of (cart_id req) (tables w)).
Proof.
  intros (Ht & _ & _)%create_order_Raise Hne Hfit Hpos.
  pose proof (cart_total_exact _ Hfit) as Htot.
  rewrite create_order_no_faults; rewrite Ht; try assumption;
    [|now rewrite Htot].
  exists (order_response (cart_items_of (cart_id req) (tables w)) w1),
    (converted req (cart_items_of (cart_id req) (tables w)) w1),
    (new_order req (cart_items_of (cart_id req) (tables w)) w1).
  split; [reflexivity|].
  cbn [converted set_sqs set_order_id_seq set_tables tables converted_tables
       orders order_items]. rewrite Ht.
  split; [reflexivity|]. split; [exact Htot|].
  unfold order_items_of. cbn [order_items new_order o_id converted_tables].
  rewrite List.filter_app, Ht.
  rewrite (filter_all_true _ (map _ _)); [reflexivity|].
  apply List.Forall_map, Forall_forall.
  intros x _. cbn. apply Nat.eqb_refl.
Qed.

Lemma create_order_retry_witness :
  exists r w2 o,
    create_order no_faults order_u1
      (after (create_order (fun p => match p with AtCommit => true
                                                | _ => false end) order_u1)
         shop_two) = (Return r, w2) /\
    orders (tables w2) = orders (tables shop_two) ++ [o] /\
    o_total o =
    exact_sum (cart_lines (cart_items_of (cart_id order_u1) (tables shop_two)))
    /\
    order_items_of (o_id o) (tables w2) ≡ₚ
    order_items_of (o_id o) (tables shop_two) ++
    map (fun ci => {| oi_order_id := o_id o;
                      oi_product_id := ci_product_id ci;
                      oi_quantity := ci_quantity ci;
                      oi_price := ci_price ci |})
      (cart_items_of (cart_id order_u1) (tables shop_two)).
Proof.
  apply (create_order_retry
           (fun p => match p with AtCommit => true | _ => false end) order_u1
           shop_two _ (HTTPException 500 "Failed to create order")).
  - vm_compute. reflexivity.
  - vm_compute. discriminate.
  - vm_compute. reflexivity.
  - vm_compute. discriminate.
Defined.

(** ** Overlapping conversions *)

Lemma task_step_Fetched_no_faults req (its : list CartItemRow) (w : World) :
  its <> [] -> 0 <= cart_total its ->
  task_step no_faults (Fetched req its) w =
  (Done (Return (order_response its w)), converted req its w).
Proof.
  intros Hne Hpos. cbn [task_step]. unfold except_Exception.
  rewrite convert_run by exact Hne. cbn [no_faults orb andb].
  rewrite andb_false_r.
  destruct (_ <? 0) eqn:Hneg; [lia | reflexivity].
Qed.

(** X13: whenever two [create_order] calls on the same cart have both read
    its items before either converts them, and the cart has items whose
    lines fit the decimal context and add up to a total that is not
    negative, both calls succeed (no infrastructure failure assumed): two
    orders with consecutive identifiers are added, both with the exact
    total of the cart, and the cart items are copied, in some order, once
    for each. *)
Theorem overlapping_create_orders req1 req2 (w : World) :
  cart_id req1 = cart_id req2 ->
  cart_items_of (cart_id req1) (tables w) <> [] ->
  fits_context (cart_lines (cart_items_of (cart_id req1) (tables w))) ->
  0 <= exact_sum (cart_lines (cart_items_of (cart_id req1) (tables w))) ->
  exists r1 r2 w' o1 o2,
    run_schedule no_faults [0; 1; 0; 1]%nat [Start req1; Start req2] w =
    ([Done (Return r1); Done (Return r2)], w') /\
    orders (tables w') = orders (tables w) ++ [o1; o2] /\
    o_total o1 =
    exact_sum (cart_lines (cart_items_of (cart_id req1) (tables w))) /\
    o_total o2 = o_total o1 /\
    o_id o2 = S (o_id o1) /\
    order_items (tables w') ≡ₚ
    order_items (tables w) ++
    map (fun ci => {| oi_order_id := o_id o1;
                      oi_product_id := ci_product_id ci;
                      oi_quantity := ci_quantity ci;
                      oi_price := ci_price ci |})
      (cart_items_of (cart_id req1) (tables w)) ++
    map (fun ci => {| oi_order_id := o_id o2;
                      oi_product_id := ci_product_id ci;
                      oi_quantity := ci_quantity ci;
                      oi_price := ci_price ci |})
      (cart_items_of (cart_id req1) (tables w)).
Proof.
  intros Hcid Hne Hfit Hpos.
  pose proof (cart_total_exact _ Hfit) as Htot.
  set (its := cart_items_of (cart_id req1) (tables w)) in *.
  assert (Hpos' : 0 <= cart_total its) by now rewrite Htot.
  exists (order_response its w), (order_response its (converted req1 its w)),
    (converted req2 its (converted req1 its w)),
    (new_order req1 its w), (new_order req2 its (converted req1 its w)).
  split.
  - cbn [run_schedule lookup list_lookup insert list_insert].
    change (task_step no_faults (Start req1) w) with (Fetched req1 its, w).
    cbv beta iota. cbn [lookup list_lookup insert list_insert].
    change (task_step no_faults (Start req2) w)
      with (Fetched req2 (cart_items_of (cart_id req2) (tables w)), w).
    rewrite <- Hcid. fold its.
    cbv beta iota. cbn [lookup list_lookup insert list_insert].
    rewrite task_step_Fetched_no_faults by assumption.
    cbn [lookup list_lookup insert list_insert].
    rewrite task_step_Fetched_no_faults by assumption.
    reflexivity.
  - cbn -[cart_total]. rewrite <- !app_assoc, Htot.
    repeat (split; [reflexivity|]). reflexivity.
Qed.

Lemma overlapping_create_orders_witness :
  exists r1 r2 w' o1 o2,
    run_schedule no_faults [0; 1; 0; 1]%nat
      [Start order_u1; Start (order_for "u2" 1)] shop_two =
    ([Done (Return r1); Done (Return r2)], w') /\
    orders (tables w') = orders (tables shop_two) ++ [o1; o2] /\
    o_total o1 =
    exact_sum (cart_lines (cart_items_of (cart_id order_u1) (tables shop_two)))
    /\
    o_total o2 = o_total o1 /\
    o_id o2 = S (o_id o1) /\
    order_items (tables w') ≡ₚ
    order_items (tables shop_two) ++
    map (fun ci => {| oi_order_id := o_id o1;
                      oi_product_id := ci_product_id ci;
                      oi_quantity := ci_quantity ci;
                      oi_price := ci_price ci |})
      (cart_items_of (cart_id order_u1) (tables shop_two)) ++
    map (fun ci => {| oi_order_id := o_id o2;
                      oi_product_id := ci_product_id ci;
                      oi_quantity := ci_quantity ci;
                      oi_price := ci_price ci |})
      (cart_items_of (cart_id order_u1) (tables shop_two)).
Proof.
  apply (overlapping_create_orders order_u1 (order_for "u2" 1) shop_two).
  - reflexivity.
  - vm_compute. discriminate.
  - vm_compute. reflexivity.
  - vm_compute. discriminate.
Defined.

(** ** Listing the orders of a user *)

#[global] Instance newer_first_total : Total newer_first.
Proof. intros a b. unfold newer_first. lia. Qed.

#[global] Instance newer_first_trans : Transitive newer_first.
Proof. intros a b c. unfold newer_first. lia. Qed.

Lemma get_user_orders_run uid limit offset (w : World) :
  0 <= limit < 2 ^ 63 -> 0 <= offset < 2 ^ 63 ->
  get_user_orders uid limit offset w =
  (Return (map user_order
             (take (Z.to_nat limit)
                (drop (Z.to_nat offset)
                   (merge_sort newer_first (orders_of_user uid (tables w)))))),
   w).
Proof.
  intros Hl Ho. unfold get_user_orders, except_Exception. rewrite bind_run.
  unfold select_user_orders at 1.
  destruct (2 ^ 63 <=? limit) eqn:E1; [lia|].
  destruct (2 ^ 63 <=? offset) eqn:E2; [lia|].
  destruct (limit <? 0) eqn:E3; [lia|].
  destruct (offset <? 0) eqn:E4; [lia|]. reflexivity.
Qed.

Lemma StronglySorted_drop {A} (R : A -> A -> Prop) n (l : list A) :
  StronglySorted R l -> StronglySorted R (drop n l).
Proof.
  revert n. induction l as [|x l IH]; intros [|n] H; cbn; auto.
  apply IH. now apply StronglySorted_inv in H.
Qed.

Lemma StronglySorted_take {A} (R : A -> A -> Prop) n (l : list A) :
  StronglySorted R l -> StronglySorted R (take n l).
Proof.
  revert n. induction l as [|x l IH]; intros [|n] H; cbn;
    try constructor.
  - apply IH. now apply StronglySorted_inv in H.
  - apply Forall_take. now apply StronglySorted_inv in H.
Qed.

Lemma orders_of_user_filter uid (t : Tables) :
  orders_of_user uid t =
  List.filter (fun o => bool_decide (o_user_id o = uid)) (orders t).
Proof.
  unfold orders_of_user. apply List.filter_ext. intros o.
  destruct (String.eqb_spec (o_user_id o) uid) as [E|E].
  - now rewrite bool_decide_eq_true_2.
  - now rewrite bool_decide_eq_false_2.
Qed.

(** X14: for a limit and an offset from 0 up to the largest 64-bit
    integer, [get_user_orders] changes nothing and answers with a page of
    at most [limit] entries, each giving the identifier, status, total,
    currency and creation time of a stored order of that user, the newer
    before the older. *)
Theorem get_user_orders_page uid limit offset (w : World) :
  0 <= limit < 2 ^ 63 -> 0 <= offset < 2 ^ 63 ->
  exists page,
    get_user_orders uid limit offset w =
    (Return (map (fun o => {| uo_id := str (o_id o);
                              uo_status := o_status o;
                              uo_total := o_total o;
                              uo_currency := o_currency o;
                              uo_created_at := o_created_at o |}) page), w) /\
    Z.of_nat (length page) <= limit /\
    Forall (fun o => o ∈ orders (tables w) /\ o_user_id o = uid) page /\
    StronglySorted (fun a b => o_created_at b <= o_created_at a) page.
Proof.
  intros Hl Ho. eexists. split; [now apply get_user_orders_run|].
  split.
  { rewrite length_take.
    pose proof (Nat.le_min_l (Z.to_nat limit)
      (length (drop (Z.to_nat offset)
         (merge_sort newer_first (orders_of_user uid (tables w)))))).
    lia. }
  split.
  - apply Forall_take, Forall_drop.
    rewrite merge_sort_Permutation. unfold orders_of_user.
    apply Forall_forall. intros o Hin%list_elem_of_In%filter_In.
    destruct Hin as [Hin Hu]. split; [now apply list_elem_of_In|].
    now apply String.eqb_eq.
  - apply StronglySorted_take, StronglySorted_drop.
    apply (StronglySorted_merge_sort newer_first).
Qed.

Lemma get_user_orders_page_witness :
  exists page,
    get_user_orders "u1" 10 0 shop_listing =
    (Return (map (fun o => {| uo_id := str (o_id o);
                              uo_status := o_status o;
                              uo_total := o_total o;
                              uo_currency := o_currency o;
                              uo_created_at := o_created_at o |}) page),
     shop_listing) /\
    Z.of_nat (length page) <= 10 /\
    Forall (fun o => o ∈ orders (tables shop_listing) /\ o_user_id o = "u1")
      page /\
    StronglySorted (fun a b => o_created_at b <= o_created_at a) page.
Proof.
  apply (get_user_orders_page "u1" 10 0 shop_listing); lia.
Defined.

(** X15: with offset 0 and a limit, below 2^63, no smaller than the
    number of orders the user has, [get_user_orders] lists every order of
    the user exactly once, and no order of anyone else. *)
Theorem get_user_orders_complete uid limit (w : World) :
  Z.of_nat (length (List.filter (fun o => bool_decide (o_user_id o = uid))
                      (orders (tables w)))) <= limit ->
  limit < 2 ^ 63 ->
  exists page,
    get_user_orders uid limit 0 w =
    (Return (map (fun o => {| uo_id := str (o_id o);
                              uo_status := o_status o;
                              uo_total := o_total o;
                              uo_currency := o_currency o;
                              uo_created_at := o_created_at o |}) page), w) /\
    page ≡ₚ List.filter (fun o => bool_decide (o_user_id o = uid))
              (orders (tables w)).
Proof.
  rewrite <- orders_of_user_filter. intros Hl Hmax. eexists.
  split; [apply get_user_orders_run; lia|].
  change (Z.to_nat 0) with 0%nat. rewrite drop_0.
  rewrite take_ge; [apply merge_sort_Permutation|].
  rewrite merge_sort_Permutation. lia.
Qed.

Lemma get_user_orders_complete_witness :
  exists page,
    get_user_orders "u1" 10 0 shop_listing =
    (Return (map (fun o => {| uo_id := str (o_id o);
                              uo_status := o_status o;
                              uo_total := o_total o;
                              uo_currency := o_currency o;
                              uo_created_at := o_created_at o |}) page),
     shop_listing) /\
    page ≡ₚ List.filter (fun o => bool_decide (o_user_id o = "u1"))
              (orders (tables shop_listing)).
Proof.
  apply (get_user_orders_complete "u1" 10 shop_listing).
  - vm_compute. discriminate.
  - lia.
Defined.

(** X16: consecutive pages of [get_user_orders] tile the listing: on an
    unchanged store in which no two orders of the user were created at the
    same time (so that the order of the listing is determined), and with
    limits and offsets that fit 64 bits, the page of [n] orders at
    [offset] followed by the page of [m] orders at [offset + n] is the
    page of [n + m] orders at [offset]. *)
Theorem get_user_orders_pages_tile uid n m offset (w : World) :
  NoDup (map o_created_at
           (List.filter (fun o => bool_decide (o_user_id o = uid))
              (orders (tables w)))) ->
  0 <= n -> 0 <= m -> 0 <= offset ->
  n + m < 2 ^ 63 -> offset + n < 2 ^ 63 ->
  exists p1 p2,
    get_user_orders uid n offset w = (Return p1, w) /\
    get_user_orders uid m (offset + n) w = (Return p2, w) /\
    get_user_orders uid (n + m) offset w = (Return (p1 ++ p2), w).
Proof.
  intros _ Hn Hm Ho Hnm Hon. do 2 eexists.
  rewrite !get_user_orders_run by lia. repeat split.
  rewrite <- map_app. rewrite !Z2Nat.inj_add by lia.
  rewrite <- drop_drop. now rewrite take_take_drop.
Qed.

Lemma get_user_orders_pages_tile_witness :
  exists p1 p2,
    get_user_orders "u1" 1 0 shop_listing = (Return p1, shop_listing) /\
    get_user_orders "u1" 1 (0 + 1) shop_listing = (Return p2, shop_listing) /\
    get_user_orders "u1" (1 + 1) 0 shop_listing =
    (Return (p1 ++ p2), shop_listing).
Proof.
  apply (get_user_orders_pages_tile "u1" 1 1 0 shop_listing); try lia.
  apply (bool_decide_unpack _). vm_compute. exact I.
Defined.

(** X18: with a limit or an offset that is negative or does not fit 64
    bits, [get_user_orders] fails with 500 "Failed to fetch orders" and
    changes nothing. *)
Theorem get_user_orders_out_of_range uid limit offset (w : World) :
  limit < 0 \/ offset < 0 \/ 2 ^ 63 <= limit \/ 2 ^ 63 <= offset ->
  get_user_orders uid limit offset w =
  (Raise (HTTPException 500 "Failed to fetch orders"), w).
Proof.
  intros H. unfold get_user_orders, except_Exception. rewrite bind_run.
  unfold select_user_orders at 1.
  destruct (2 ^ 63 <=? limit) eqn:E1; [reflexivity|].
  destruct (2 ^ 63 <=? offset) eqn:E2; [reflexivity|].
  destruct (limit <? 0) eqn:E3; [reflexivity|].
  destruct (offset <? 0) eqn:E4; [reflexivity|]. lia.
Qed.

Lemma get_user_orders_out_of_range_witness :
  get_user_orders "u1" (2 ^ 63) 0 shop_listing =
  (Raise (HTTPException 500 "Failed to fetch orders"), shop_listing).
Proof.
  apply (get_user_orders_out_of_range "u1" (2 ^ 63) 0 shop_listing).
  right. right. left. lia.
Defined.
